(** * Jira webhook to Asana task forwarder: a shallow embedding of
      [AsanaPython.py] and the properties of its payload normalizer and
      task forwarder.

    The Python functions are embedded as Rocq functions over a model of the
    values that [json] decoding produces.  Exceptions are explicit
    ([result]); console output and the outbound HTTP call are recorded in a
    trace ([M]); the answer of the destination API and the encoding of the
    console are fields of the environment. *)

From Stdlib Require Import List String Ascii ZArith Bool Lia.
From Stdlib Require Import DecimalString.
Import ListNotations.
Local Open Scope string_scope.
Local Open Scope Z_scope.
Set Warnings "-register-all".

(* ================================================================= *)
(** ** Python values *)

(** A float is observed by the program only through its truth value and its
    [str]; it is kept as those two observations. *)
Record pyfloat : Type := PyFloat {
  float_nonzero : bool;
  float_repr    : string
}.

(** The values [json.loads] builds.  A str is the string of its characters,
    one [ascii] per character: the model covers the characters up to U+00FF.
    A dict keeps its items in insertion order; a lookup returns the first
    item with the key. *)
Inductive value : Type :=
| VNone
| VBool  (b : bool)
| VInt   (n : Z)
| VFloat (f : pyfloat)
| VStr   (s : string)
| VList  (items : list value)
| VDict  (items : list (string * value)).

Definition dict := list (string * value).

(** The characters a Rocq string literal cannot hold directly. *)
Definition nl     : string := String "010"%char EmptyString.
Definition dquote : ascii  := "034"%char.
Definition squote : ascii  := "039"%char.
Definition bslash : ascii  := "092"%char.

(* ----------------------------------------------------------------- *)
(** *** Exceptions *)

Inductive exn_class : Type :=
| AttributeError
| TypeError
| KeyError
| ValueError
| UnicodeEncodeError      (* a ValueError: raised by a write to the console *)
| BadRequest              (* werkzeug.exceptions.BadRequest *)
| RequestException        (* requests.RequestException and its subclasses *)
| ConnectionError
| Timeout
| RequestsJSONDecodeError.

(** An exception: its class and what [str(e)] gives. *)
Record exn : Type := Exn {
  exn_cls : exn_class;
  exn_str : string
}.

(** [isinstance(e, requests.RequestException)]. *)
Definition is_request_exception (e : exn) : bool :=
  match exn_cls e with
  | RequestException | ConnectionError | Timeout | RequestsJSONDecodeError => true
  | _ => false
  end.

Inductive result (A : Type) : Type :=
| Ok    (a : A)
| Raise (e : exn).
Arguments Ok {A} a.
Arguments Raise {A} e.

Definition rbind {A B} (r : result A) (k : A -> result B) : result B :=
  match r with
  | Ok a => k a
  | Raise e => Raise e
  end.

Declare Scope result_scope.
Delimit Scope result_scope with res.
Notation "x <- r ;; k" := (rbind r (fun x => k))
  (at level 61, r at next level, right associativity) : result_scope.

(* ----------------------------------------------------------------- *)
(** *** Strings *)

Definition join (sep : string) (parts : list string) : string :=
  String.concat sep parts.

Fixpoint string_mem (c : ascii) (s : string) : bool :=
  match s with
  | EmptyString => false
  | String d s' => Ascii.eqb c d || string_mem c s'
  end.

Fixpoint is_infix (p s : string) : bool :=
  String.prefix p s ||
  match s with
  | EmptyString => false
  | String _ s' => is_infix p s'
  end.

Definition str_truthy (s : string) : bool :=
  match s with
  | EmptyString => false
  | String _ _ => true
  end.

Fixpoint count_char (c : ascii) (s : string) : nat :=
  match s with
  | EmptyString => O
  | String d s' => ((if Ascii.eqb c d then 1 else 0) + count_char c s')%nat
  end.

Fixpoint string_forallb (f : ascii -> bool) (s : string) : bool :=
  match s with
  | EmptyString => true
  | String c s' => f c && string_forallb f s'
  end.

Definition is_ascii_char (c : ascii) : bool := (N_of_ascii c <? 128)%N.

(** Every character of the string is below U+0080. *)
Definition all_ascii (s : string) : bool := string_forallb is_ascii_char s.

(** The number of newline characters of a string. *)
Definition newlines (s : string) : nat := count_char "010"%char s.

Definition hex_digit (n : N) : ascii :=
  match n with
  | 0%N => "0" | 1%N => "1" | 2%N => "2" | 3%N => "3" | 4%N => "4"
  | 5%N => "5" | 6%N => "6" | 7%N => "7" | 8%N => "8" | 9%N => "9"
  | 10%N => "a" | 11%N => "b" | 12%N => "c" | 13%N => "d" | 14%N => "e"
  | _ => "f"
  end%char.

(** [\xNN] for the character [c]. *)
Definition hex_escape (c : ascii) : string :=
  let n := N_of_ascii c in
  String bslash (String "x" (String (hex_digit (n / 16))
                            (String (hex_digit (n mod 16)) EmptyString))).

(** [c.isprintable()] for a character up to U+00FF: all but the controls
    U+0000-U+001F and U+007F-U+009F, the no-break space U+00A0 and the soft
    hyphen U+00AD. *)
Definition printable (c : ascii) : bool :=
  let n := N_of_ascii c in
  negb ((n <? 32)%N || ((127 <=? n)%N && (n <=? 160)%N) || (n =? 173)%N).

(** One character of [repr] of a [str] delimited by [q]. *)
Definition repr_char (q c : ascii) : string :=
  let n := N_of_ascii c in
  if Ascii.eqb c q || Ascii.eqb c bslash then String bslash (String c EmptyString)
  else if (n =? 9)%N then String bslash "t"
  else if (n =? 10)%N then String bslash "n"
  else if (n =? 13)%N then String bslash "r"
  else if printable c then String c EmptyString
  else hex_escape c.

Fixpoint repr_chars (q : ascii) (s : string) : string :=
  match s with
  | EmptyString => EmptyString
  | String c s' => repr_char q c ++ repr_chars q s'
  end.

(** [repr(s)] of a [str]: single quotes, unless the string holds a single
    quote and no double quote. *)
Definition repr_str (s : string) : string :=
  let q := if string_mem squote s && negb (string_mem dquote s)
           then dquote else squote in
  String q (repr_chars q s ++ String q EmptyString).

Definition str_int (n : Z) : string := NilZero.string_of_int (Z.to_int n).

(* ----------------------------------------------------------------- *)
(** *** Builtins on values *)

Fixpoint py_repr (v : value) : string :=
  match v with
  | VNone => "None"
  | VBool true => "True"
  | VBool false => "False"
  | VInt n => str_int n
  | VFloat f => float_repr f
  | VStr s => repr_str s
  | VList l => "[" ++ join ", " (map py_repr l) ++ "]"
  | VDict d =>
      "{" ++ join ", " (map (fun kv => repr_str (fst kv) ++ ": " ++ py_repr (snd kv)) d)
          ++ "}"
  end.

(** [str(v)], also what an f-string field [{v}] inserts. *)
Definition py_str (v : value) : string :=
  match v with
  | VStr s => s
  | _ => py_repr v
  end.

(** [bool(v)]. *)
Definition truthy (v : value) : bool :=
  match v with
  | VNone => false
  | VBool b => b
  | VInt n => negb (n =? 0)
  | VFloat f => float_nonzero f
  | VStr s => str_truthy s
  | VList l => match l with [] => false | _ => true end
  | VDict d => match d with [] => false | _ => true end
  end.

Definition type_name (v : value) : string :=
  match v with
  | VNone => "NoneType"
  | VBool _ => "bool"
  | VInt _ => "int"
  | VFloat _ => "float"
  | VStr _ => "str"
  | VList _ => "list"
  | VDict _ => "dict"
  end.

(** [isinstance(v, dict)]. *)
Definition is_dict (v : value) : bool :=
  match v with
  | VDict _ => true
  | _ => false
  end.

(** [v == s] for a [str] [s]. *)
Definition eq_str (v : value) (s : string) : bool :=
  match v with
  | VStr t => String.eqb t s
  | _ => false
  end.

Fixpoint dict_get (d : dict) (k : string) : option value :=
  match d with
  | [] => None
  | (k', v) :: d' => if String.eqb k' k then Some v else dict_get d' k
  end.

Definition dict_has (d : dict) (k : string) : bool :=
  match dict_get d k with
  | Some _ => true
  | None => false
  end.

Definition dict_get_default (d : dict) (k : string) (default : value) : value :=
  match dict_get d k with
  | Some x => x
  | None => default
  end.

Definition no_attribute (v : value) (attr : string) : exn :=
  Exn AttributeError
      ("'" ++ type_name v ++ "' object has no attribute '" ++ attr ++ "'").

(** [v.get(k, default)]. *)
Definition py_get (v : value) (k : string) (default : value) : result value :=
  match v with
  | VDict d => Ok (dict_get_default d k default)
  | _ => Raise (no_attribute v "get")
  end.

(** [k in v] for a [str] [k]. *)
Definition py_in (k : string) (v : value) : result bool :=
  match v with
  | VDict d => Ok (dict_has d k)
  | VList l => Ok (existsb (fun x => eq_str x k) l)
  | VStr s => Ok (is_infix k s)
  | _ => Raise (Exn TypeError
                    ("argument of type '" ++ type_name v ++ "' is not iterable"))
  end.

(** [v[k]] for a [str] [k]. *)
Definition py_getitem (v : value) (k : string) : result value :=
  match v with
  | VDict d =>
      match dict_get d k with
      | Some x => Ok x
      | None => Raise (Exn KeyError (repr_str k))
      end
  | VList _ => Raise (Exn TypeError "list indices must be integers or slices, not str")
  | VStr _ => Raise (Exn TypeError "string indices must be integers, not 'str'")
  | _ => Raise (Exn TypeError ("'" ++ type_name v ++ "' object is not subscriptable"))
  end.

(** The items a [for] loop over [v] visits: the elements of a list, the
    characters of a str, the keys of a dict. *)
Fixpoint chars (s : string) : list value :=
  match s with
  | EmptyString => []
  | String c s' => VStr (String c EmptyString) :: chars s'
  end.

Definition py_iter (v : value) : result (list value) :=
  match v with
  | VList l => Ok l
  | VStr s => Ok (chars s)
  | VDict d => Ok (map (fun kv => VStr (fst kv)) d)
  | _ => Raise (Exn TypeError ("'" ++ type_name v ++ "' object is not iterable"))
  end.

(** ["".join(parts)]: every item has to be a [str]. *)
Fixpoint join_items (i : Z) (parts : list value) : result (list string) :=
  match parts with
  | [] => Ok []
  | VStr s :: rest =>
      match join_items (i + 1) rest with
      | Ok l => Ok (s :: l)
      | Raise e => Raise e
      end
  | v :: _ =>
      Raise (Exn TypeError ("sequence item " ++ str_int i ++ ": expected str instance, "
                            ++ type_name v ++ " found"))
  end.

Definition py_join (sep : string) (parts : list value) : result string :=
  match join_items 0 parts with
  | Ok l => Ok (join sep l)
  | Raise e => Raise e
  end.

(* ================================================================= *)
(** ** Payload normalizer *)

(** The loop of [extract_paragraph_text] over the inline nodes. *)
Fixpoint paragraph_loop (items : list value) (text_parts : list value)
  : result (list value) :=
  match items with
  | [] => Ok text_parts
  | item :: rest =>
      (ty <- py_get item "type" VNone ;;
       if eq_str ty "text" then
         (has_text <- py_in "text" item ;;
          if has_text then
            (t <- py_getitem item "text" ;;
             paragraph_loop rest (text_parts ++ [t])%list)
          else paragraph_loop rest text_parts)
       else paragraph_loop rest text_parts)%res
  end.

Definition extract_paragraph_text (paragraph : value) : string :=
  match
    (has_content <- py_in "content" paragraph ;;
     if has_content then
       (content <- py_getitem paragraph "content" ;;
        items <- py_iter content ;;
        text_parts <- paragraph_loop items [] ;;
        py_join "" text_parts)
     else Ok "")%res
  with
  | Ok s => s
  | Raise _ => ""
  end.

(** The loop of [extract_text_from_adf] over the block nodes. *)
Fixpoint adf_loop (items : list value) (text_parts : list string)
  : result (list string) :=
  match items with
  | [] => Ok text_parts
  | content_item :: rest =>
      (ty <- py_get content_item "type" VNone ;;
       if eq_str ty "paragraph" then
         let paragraph_text := extract_paragraph_text content_item in
         if str_truthy paragraph_text
         then adf_loop rest (text_parts ++ [paragraph_text])%list
         else adf_loop rest text_parts
       else adf_loop rest text_parts)%res
  end.

(* ================================================================= *)
(** ** Effects: the console and the outbound call *)

Record post_request : Type := PostRequest {
  post_url     : string;
  post_json    : value;
  post_headers : list (string * string);
  post_timeout : Z
}.

(** What the program reads of a [requests.Response]: [status_code], [text]
    and the outcome of [json()]. *)
Record response : Type := Response {
  status_code : Z;
  text        : string;
  json        : result value
}.

Inductive http_outcome : Type :=
| Responded  (r : response)
| PostRaised (e : exn).

(** What a run does to the outside.  The traceback of line 128 is this
    file's path and source lines and [str(e)]: ASCII text whenever [str(e)]
    is, the path being ASCII. *)
Inductive event : Type :=
| Log          (level message : string)   (* log_message(message, level) *)
| LogTraceback (e : exn)                  (* log_message(traceback.format_exc(), "ERROR") *)
| HttpPost     (r : post_request).        (* requests.post(...) *)

(** A computation: its outcome and the events it produced, in order. *)
Definition M (A : Type) : Type := (result A * list event)%type.

Definition ret {A} (a : A) : M A := (Ok a, []).

Definition bind {A B} (m : M A) (k : A -> M B) : M B :=
  match m with
  | (Ok a, t) => let (r, t') := k a in (r, (t ++ t')%list)
  | (Raise e, t) => (Raise e, t)
  end.

Definition lift {A} (r : result A) : M A := (r, []).

(** [try: m  except Exception as e: handler e]. *)
Definition try_except {A} (m : M A) (handler : exn -> M A) : M A :=
  match m with
  | (Ok a, t) => (Ok a, t)
  | (Raise e, t) => let (r, t') := handler e in (r, (t ++ t')%list)
  end.

Declare Scope m_scope.
Delimit Scope m_scope with M.
Notation "x <- m ;; k" := (bind m (fun x => k))
  (at level 61, m at next level, right associativity) : m_scope.
Notation "m ;; k" := (bind m (fun _ => k))
  (at level 61, right associativity) : m_scope.

(* ----------------------------------------------------------------- *)
(** *** The console *)

(** The encoding of [sys.stdout], whose error handler is [strict]. *)
Inductive codec : Type :=
| UTF8
| Latin1
| ASCII
| CP1252.

(** The encoding has the character: every encoding has U+0000-U+007F;
    cp1252 has none of U+0080-U+009F. *)
Definition encodes (c : codec) (ch : ascii) : bool :=
  is_ascii_char ch ||
  match c with
  | UTF8 | Latin1 => true
  | ASCII => false
  | CP1252 => (160 <=? N_of_ascii ch)%N
  end.

(** The encoding has every character of the string. *)
Definition encodable (c : codec) (s : string) : bool :=
  string_forallb (encodes c) s.

Definition codec_name (c : codec) : string :=
  match c with
  | UTF8 => "utf-8"
  | Latin1 => "latin-1"
  | ASCII => "ascii"
  | CP1252 => "charmap"
  end.

Definition codec_reason (c : codec) : string :=
  match c with
  | UTF8 => "surrogates not allowed"
  | Latin1 => "ordinal not in range(256)"
  | ASCII => "ordinal not in range(128)"
  | CP1252 => "character maps to <undefined>"
  end.

(** The number of characters at the head of [s] that the encoding lacks. *)
Fixpoint unencodable_run (c : codec) (s : string) : Z :=
  match s with
  | EmptyString => 0
  | String ch s' => if encodes c ch then 0 else 1 + unencodable_run c s'
  end.

(** [str(e)] of the [UnicodeEncodeError] for the characters at positions
    [start] to [stop - 1], the first of which is [ch]. *)
Definition encode_error (c : codec) (ch : ascii) (start stop : Z) : exn :=
  Exn UnicodeEncodeError
      ("'" ++ codec_name c ++ "' codec can't encode "
       ++ (if stop =? start + 1
           then "character '" ++ hex_escape ch ++ "' in position " ++ str_int start
           else "characters in position " ++ str_int start ++ "-" ++ str_int (stop - 1))
       ++ ": " ++ codec_reason c).

(** Encoding [s], whose first character is at position [pos] of the text
    written: the error names the first run of characters the encoding
    lacks. *)
Fixpoint encode_from (c : codec) (pos : Z) (s : string) : result unit :=
  match s with
  | EmptyString => Ok tt
  | String ch s' =>
      if encodes c ch then encode_from c (pos + 1) s'
      else Raise (encode_error c ch pos (pos + 1 + unencodable_run c s'))
  end.

(* ----------------------------------------------------------------- *)
(** *** The environment *)

(** Configuration read at start-up ([os.getenv] gives a str or [None]), the
    answer of the destination API to an outbound request, and the encoding
    of the console. *)
Record environment : Type := Environment {
  ASANA_TOKEN      : option string;
  ASANA_PROJECT_ID : option string;
  destination      : post_request -> http_outcome;
  stdout_encoding  : codec
}.

(** The console can write the text. *)
Definition stdout_accepts (env : environment) (s : string) : bool :=
  encodable (stdout_encoding env) s.

(** [print(f"[{timestamp}] [{level}] {message}")]: the timestamp is 19
    ASCII characters, so the level starts at position 23 of the line.  A
    line the console cannot encode is not written. *)
Definition log_message (env : environment) (message level : string) : M unit :=
  match encode_from (stdout_encoding env) 23 (level ++ "] " ++ message) with
  | Ok _ => (Ok tt, [Log level message])
  | Raise e => (Raise e, [])
  end.

Definition INFO : string := "INFO".

(** The [try] block of [extract_text_from_adf]. *)
Definition adf_walk (adf_content : value) : result string :=
  (in_doc <- (if is_dict adf_content then py_in "content" adf_content
              else Ok false) ;;
   if in_doc then
     (content <- py_getitem adf_content "content" ;;
      items <- py_iter content ;;
      text_parts <- adf_loop items [] ;;
      Ok (join nl text_parts))
   else Ok (py_str adf_content))%res.

Definition extract_text_from_adf (env : environment) (adf_content : value)
  : M string :=
  try_except
    (lift (adf_walk adf_content))
    (fun e =>
       (log_message env ("Error extracting text from ADF: " ++ exn_str e) "WARN" ;;
        ret (py_str adf_content))%M).

(* ================================================================= *)
(** ** Task forwarder *)

Definition getenv_value (o : option string) : value :=
  match o with
  | Some s => VStr s
  | None => VNone
  end.

(** [requests.post(url, json=..., headers=..., timeout=...)]. *)
Definition requests_post (env : environment) (r : post_request) : M response :=
  match destination env r with
  | Responded resp => (Ok resp, [HttpPost r])
  | PostRaised e => (Raise e, [HttpPost r])
  end.

Definition asana_request (env : environment) (task_name task_notes : string)
  : post_request :=
  let headers :=
    [("Authorization", "Bearer " ++ py_str (getenv_value (ASANA_TOKEN env)));
     ("Content-Type", "application/json")] in
  let payload :=
    VDict [("data",
            VDict [("name", VStr task_name);
                   ("notes", VStr task_notes);
                   ("projects", VList [getenv_value (ASANA_PROJECT_ID env)])])] in
  PostRequest "https://app.asana.com/api/1.0/tasks" payload headers 30.

(** The [try] block of [create_asana_task] (lines 47-87). *)
Definition create_task_body (env : environment) (task_name task_notes : string)
  : M value :=
  (log_message env "Sending request to Asana API" INFO ;;
   response <- requests_post env (asana_request env task_name task_notes) ;;
   log_message env ("Asana API response status: " ++ str_int (status_code response))
               INFO ;;
   if status_code response =? 201 then
     (task_data <- lift (json response) ;;
      data <- lift (py_get task_data "data" (VDict [])) ;;
      task_gid <- lift (py_get data "gid" (VStr "Unknown")) ;;
      ret (VDict [("status", VStr "success");
                  ("message", VStr "Task created successfully in Asana");
                  ("task_id", task_gid);
                  ("task_name", VStr task_name);
                  ("asana_url",
                   VStr ("https://app.asana.com/0/"
                         ++ py_str (getenv_value (ASANA_PROJECT_ID env))
                         ++ "/" ++ py_str task_gid))]))
   else
     let error_msg := "Asana API Error: " ++ str_int (status_code response)
                      ++ " - " ++ text response in
     (log_message env error_msg "ERROR" ;;
      ret (VDict [("status", VStr "error");
                  ("message", VStr error_msg);
                  ("error_type", VStr "asana_api");
                  ("status_code", VInt (status_code response))])))%M.

(** The line the handlers of [create_asana_task] log, and the result they
    return (lines 89-96). *)
Definition creation_error_msg (e : exn) : string :=
  (if is_request_exception e
   then "Network error while calling Asana API: "
   else "Unexpected error creating Asana task: ") ++ exn_str e.

Definition creation_error (e : exn) : value :=
  VDict [("status", VStr "error");
         ("message", VStr (creation_error_msg e));
         ("error_type",
          VStr (if is_request_exception e then "network" else "task_creation"))].

Definition creation_failed (env : environment) (e : exn) : M value :=
  if is_request_exception e then
    let error_msg := "Network error while calling Asana API: " ++ exn_str e in
    (log_message env error_msg "ERROR" ;;
     ret (VDict [("status", VStr "error");
                 ("message", VStr error_msg);
                 ("error_type", VStr "network")]))%M
  else
    let error_msg := "Unexpected error creating Asana task: " ++ exn_str e in
    (log_message env error_msg "ERROR" ;;
     ret (VDict [("status", VStr "error");
                 ("message", VStr error_msg);
                 ("error_type", VStr "task_creation")]))%M.

Definition create_asana_task (env : environment) (task_name task_notes : string)
  : M value :=
  try_except (create_task_body env task_name task_notes) (creation_failed env).

(** Lines 102-106: the issue key, the summary and the description. *)
Definition issue_fields (data : value) : result (value * value * value) :=
  (issue <- py_get data "issue" (VDict []) ;;
   jira_key <- py_get issue "key" (VStr "UNKNOWN") ;;
   fields <- py_get issue "fields" (VDict []) ;;
   summary <- py_get fields "summary" (VStr "No Title") ;;
   description <- py_get fields "description" (VStr "") ;;
   Ok (jira_key, summary, description))%res.

(** Lines 108-111: the text of the description. *)
Definition description_text (env : environment) (description : value) : M string :=
  if is_dict description then extract_text_from_adf env description
  else ret (if truthy description then py_str description else "").

(** Line 115. *)
Definition asana_task_name (jira_key summary : value) : string :=
  "[" ++ py_str jira_key ++ "] " ++ py_str summary.

(** Line 116. *)
Definition notes_header (jira_key summary : value) : string :=
  "Jira Issue: " ++ py_str jira_key ++ nl
  ++ "Original Summary: " ++ py_str summary ++ nl ++ nl.

(** Lines 116-118. *)
Definition asana_task_notes (jira_key summary : value) (description_text : string)
  : string :=
  let notes := notes_header jira_key summary in
  if str_truthy description_text
  then notes ++ "Description:" ++ nl ++ description_text
  else notes.

(** Line 113. *)
Definition processing_line (jira_key summary : value) : string :=
  "Processing Jira issue: " ++ py_str jira_key ++ " - " ++ py_str summary.

(** The [try] block of [create_asana_task_from_jira_webhook]. *)
Definition webhook_body (env : environment) (data : value) : M value :=
  (log_message env "Starting Jira to Asana sync process" INFO ;;
   f <- lift (issue_fields data) ;;
   let '(jira_key, summary, description) := f in
   text <- description_text env description ;;
   log_message env (processing_line jira_key summary) INFO ;;
   result <- create_asana_task env (asana_task_name jira_key summary)
                               (asana_task_notes jira_key summary text) ;;
   status <- lift (py_getitem result "status") ;;
   (if eq_str status "success"
    then log_message env ("Successfully created Asana task for " ++ py_str jira_key) INFO
    else ret tt) ;;
   ret result)%M.

Definition processing_error (e : exn) : value :=
  VDict [("status", VStr "error");
         ("message", VStr ("Error processing webhook data: " ++ exn_str e));
         ("error_type", VStr "processing")].

Definition create_asana_task_from_jira_webhook (env : environment) (data : value)
  : M value :=
  try_except (webhook_body env data)
    (fun e =>
       (log_message env ("Error processing webhook data: " ++ exn_str e) "ERROR" ;;
        (Ok tt, [LogTraceback e]) ;;
        ret (processing_error e))%M).

(* ================================================================= *)
(** ** The endpoint *)

(** What the handler reads of the Flask request: [request.is_json] and the
    outcome of [request.get_json()]. *)
Record request : Type := Request {
  is_json  : bool;
  get_json : result value
}.

(** A response: the JSON document [jsonify] serializes and the status. *)
Record http_response : Type := HttpResponse {
  response_json   : value;
  response_status : Z
}.

Definition jira_webhook (env : environment) (req : request) : M http_response :=
  if negb (is_json req) then
    ret (HttpResponse (VDict [("status", VStr "error");
                              ("message", VStr "Expected JSON data")]) 400)
  else
    (data <- lift (get_json req) ;;
     result <- create_asana_task_from_jira_webhook env data ;;
     ret (HttpResponse result 200))%M.

(* ================================================================= *)
(** ** Observations on a run *)

Fixpoint posts (t : list event) : list post_request :=
  match t with
  | [] => []
  | HttpPost r :: t' => r :: posts t'
  | _ :: t' => posts t'
  end.

(** A member of the [data] object of an outbound request body. *)
Definition posted_field (f : string) (r : post_request) : option value :=
  match post_json r with
  | VDict p =>
      match dict_get p "data" with
      | Some (VDict d) => dict_get d f
      | _ => None
      end
  | _ => None
  end.

(** The values of member [f] in the requests a run sent, in order. *)
Definition posted {A} (f : string) (m : M A) : list (option value) :=
  map (posted_field f) (posts (snd m)).

(** A task result: a dict whose "status" is "success" or "error". *)
Definition is_task_result (v : value) : Prop :=
  exists r, v = VDict r /\
            (dict_get r "status" = Some (VStr "success") \/
             dict_get r "status" = Some (VStr "error")).

(* ----------------------------------------------------------------- *)
(** *** Rich-text documents *)

(** [v] is an inline text node with text [s]. *)
Definition is_text_node (v : value) (s : string) : Prop :=
  exists d, v = VDict d /\
            dict_get d "type" = Some (VStr "text") /\
            dict_get d "text" = Some (VStr s).

(** [v] is a paragraph block whose inline nodes are text nodes with the
    texts [texts]. *)
Definition is_paragraph (v : value) (texts : list string) : Prop :=
  exists d inlines, v = VDict d /\
                    dict_get d "type" = Some (VStr "paragraph") /\
                    dict_get d "content" = Some (VList inlines) /\
                    Forall2 is_text_node inlines texts.

(** [v] is a document whose blocks are the paragraphs [paragraphs]. *)
Definition is_document (v : value) (paragraphs : list (list string)) : Prop :=
  exists d blocks, v = VDict d /\
                   dict_get d "content" = Some (VList blocks) /\
                   Forall2 is_paragraph blocks paragraphs.

Definition text_node (s : string) : value :=
  VDict [("type", VStr "text"); ("text", VStr s)].

Definition paragraph_node (texts : list string) : value :=
  VDict [("type", VStr "paragraph"); ("content", VList (map text_node texts))].

Definition adf_doc (paragraphs : list (list string)) : value :=
  VDict [("type", VStr "doc"); ("content", VList (map paragraph_node paragraphs))].

(** The payload [{"issue": {"key": ..., "fields": {"summary": ..., ...}}}]. *)
Definition issue_event (key summary : string) (more_fields : dict) : value :=
  VDict [("issue", VDict [("key", VStr key);
                          ("fields", VDict (("summary", VStr summary) :: more_fields))])].

(** An environment whose destination answers every request with one
    response, and one whose destination cannot be reached. *)
Definition answering (status : Z) (body : string) (parsed : result value)
  : environment :=
  Environment (Some "token") (Some "1200")
              (fun _ => Responded (Response status body parsed)) UTF8.

Definition quoted (s : string) : string :=
  String dquote (s ++ String dquote EmptyString).

(** The body [{"data":{"gid":"999"}}]. *)
Definition gid_999 : string :=
  "{" ++ quoted "data" ++ ":{" ++ quoted "gid" ++ ":" ++ quoted "999" ++ "}}".

Definition failing (e : exn) : environment :=
  Environment (Some "token") (Some "1200") (fun _ => PostRaised e) UTF8.

(** The environment with another console encoding. *)
Definition on_console (c : codec) (env : environment) : environment :=
  Environment (ASANA_TOKEN env) (ASANA_PROJECT_ID env) (destination env) c.

(** "Caf" and U+00E9. *)
Definition cafe : string := "Caf" ++ String "233"%char EmptyString.

(** The texts of the paragraphs that have some: what the normalizer joins. *)
Definition segments (paragraphs : list (list string)) : list string :=
  filter str_truthy (map (join "") paragraphs).

(** What an inline node that is an object adds to [text_parts]: the value
    of its "text" member when its "type" is "text" and it has one. *)
Definition node_text (d : dict) : list value :=
  if eq_str (dict_get_default d "type" VNone) "text"
  then match dict_get d "text" with
       | Some t => [t]
       | None => []
       end
  else [].

(** The block is an object whose "type" is "paragraph". *)
Definition block_is_paragraph (v : value) : bool :=
  match v with
  | VDict d => eq_str (dict_get_default d "type" VNone) "paragraph"
  | _ => false
  end.

Definition is_str (v : value) : bool :=
  match v with
  | VStr _ => true
  | _ => false
  end.

Definition is_list (v : value) : bool :=
  match v with
  | VList _ => true
  | _ => false
  end.

(** The events of [create_asana_task] up to the status line. *)
Definition sent_events (env : environment) (task_name task_notes : string)
           (resp : response) : list event :=
  [Log INFO "Sending request to Asana API";
   HttpPost (asana_request env task_name task_notes);
   Log INFO ("Asana API response status: " ++ str_int (status_code resp))].

(** Lines 70-78, on what [response.json()] gave. *)
Definition created_result (env : environment) (task_name : string)
           (decoded : result value) : result value :=
  (task_data <- decoded ;;
   data <- py_get task_data "data" (VDict []) ;;
   task_gid <- py_get data "gid" (VStr "Unknown") ;;
   Ok (VDict [("status", VStr "success");
              ("message", VStr "Task created successfully in Asana");
              ("task_id", task_gid);
              ("task_name", VStr task_name);
              ("asana_url",
               VStr ("https://app.asana.com/0/"
                     ++ py_str (getenv_value (ASANA_PROJECT_ID env))
                     ++ "/" ++ py_str task_gid))]))%res.

(** Lines 80-87. *)
Definition api_error_msg (resp : response) : string :=
  "Asana API Error: " ++ str_int (status_code resp) ++ " - " ++ text resp.

Definition api_error (resp : response) : value :=
  VDict [("status", VStr "error");
         ("message", VStr (api_error_msg resp));
         ("error_type", VStr "asana_api");
         ("status_code", VInt (status_code resp))].

(** What the [try] block of [create_asana_task] raised, if it did: an
    exception of the call or of the decoding of a 201 answer. *)
Definition call_raised (env : environment) (task_name task_notes : string) (e : exn)
  : Prop :=
  destination env (asana_request env task_name task_notes) = PostRaised e \/
  exists resp,
    destination env (asana_request env task_name task_notes) = Responded resp /\
    status_code resp = 201 /\
    created_result env task_name (json resp) = Raise e.

(* ================================================================= *)
(** ** Lemmas on the builtins *)

Lemma posts_app (t u : list event) : posts (t ++ u) = (posts t ++ posts u)%list.
Proof.
  induction t as [|e t IH]; simpl; [reflexivity|].
  destruct e; simpl; rewrite IH; reflexivity.
Qed.

Lemma count_char_app (c : ascii) (a b : string) :
  count_char c (a ++ b) = (count_char c a + count_char c b)%nat.
Proof.
  induction a as [|d a IH]; simpl; [reflexivity|].
  rewrite IH. lia.
Qed.

Lemma newlines_join (segs : list string) :
  Forall (fun s => newlines s = O) segs ->
  newlines (join nl segs) = pred (List.length segs).
Proof.
  unfold newlines, join.
  induction 1 as [|s segs Hs Hall IH]; [reflexivity|].
  destruct segs as [|s' segs']; [exact Hs|].
  change (String.concat nl (s :: s' :: segs'))
    with (s ++ nl ++ String.concat nl (s' :: segs')).
  rewrite !count_char_app, Hs, IH. reflexivity.
Qed.

Lemma newlines_concat (texts : list string) :
  Forall (fun s => newlines s = O) texts -> newlines (join "" texts) = O.
Proof.
  unfold newlines, join.
  induction 1 as [|s texts Hs Hall IH]; [reflexivity|].
  destruct texts as [|s' texts']; [exact Hs|].
  change (String.concat "" (s :: s' :: texts'))
    with (s ++ "" ++ String.concat "" (s' :: texts')).
  rewrite !count_char_app, Hs, IH. reflexivity.
Qed.

Lemma join_items_strs (i : Z) (texts : list string) :
  join_items i (map VStr texts) = Ok texts.
Proof.
  revert i. induction texts as [|s texts IH]; intros i; simpl; [reflexivity|].
  rewrite IH. reflexivity.
Qed.

(* ================================================================= *)
(** ** Lemmas on the console *)

Lemma string_forallb_app (f : ascii -> bool) (a b : string) :
  string_forallb f (a ++ b) = string_forallb f a && string_forallb f b.
Proof.
  induction a as [|c a IH]; simpl; [reflexivity|].
  rewrite IH, andb_assoc. reflexivity.
Qed.

Lemma all_ascii_app (a b : string) :
  all_ascii (a ++ b) = all_ascii a && all_ascii b.
Proof. apply string_forallb_app. Qed.

Lemma encodable_app (c : codec) (a b : string) :
  encodable c (a ++ b) = encodable c a && encodable c b.
Proof. apply string_forallb_app. Qed.

Lemma all_ascii_encodable (c : codec) (s : string) :
  all_ascii s = true -> encodable c s = true.
Proof.
  unfold all_ascii, encodable, encodes.
  induction s as [|ch s IH]; simpl; [reflexivity|].
  intros H. apply andb_prop in H. destruct H as [Hc Hs].
  rewrite Hc, (IH Hs). reflexivity.
Qed.

Lemma digits_ascii (d : Decimal.uint) :
  all_ascii (NilEmpty.string_of_uint d) = true.
Proof. unfold all_ascii. induction d; simpl; auto. Qed.

Lemma string_of_uint_ascii (d : Decimal.uint) :
  all_ascii (NilZero.string_of_uint d) = true.
Proof. destruct d; try reflexivity; apply (digits_ascii (_ d)). Qed.

Lemma str_int_ascii (n : Z) : all_ascii (str_int n) = true.
Proof.
  unfold str_int. destruct (Z.to_int n) as [d|d]; simpl;
    apply string_of_uint_ascii.
Qed.

Lemma hex_escape_ascii (ch : ascii) : all_ascii (hex_escape ch) = true.
Proof. destruct ch as [[] [] [] [] [] [] [] []]; reflexivity. Qed.

Lemma type_name_ascii (v : value) : all_ascii (type_name v) = true.
Proof. destruct v; reflexivity. Qed.

Lemma no_attribute_ascii (v : value) :
  all_ascii (exn_str (no_attribute v "get")) = true.
Proof. destruct v; reflexivity. Qed.

Lemma encode_error_ascii (c : codec) (ch : ascii) (start stop : Z) :
  all_ascii (exn_str (encode_error c ch start stop)) = true.
Proof.
  unfold encode_error, exn_str.
  assert (Hname : all_ascii (codec_name c) = true) by (destruct c; reflexivity).
  assert (Hreason : all_ascii (codec_reason c) = true) by (destruct c; reflexivity).
  destruct (stop =? start + 1);
    rewrite !all_ascii_app, ?Hname, ?Hreason, ?hex_escape_ascii, ?str_int_ascii;
    reflexivity.
Qed.

Lemma encode_from_encodable (c : codec) (s : string) :
  encodable c s = true -> forall pos, encode_from c pos s = Ok tt.
Proof.
  unfold encodable. induction s as [|ch s IH]; simpl; intros H pos; [reflexivity|].
  apply andb_prop in H. destruct H as [Hc Hs]. rewrite Hc. apply IH, Hs.
Qed.

Lemma encode_from_unencodable (c : codec) (s : string) :
  encodable c s = false ->
  forall pos, exists ch start stop, encode_from c pos s = Raise (encode_error c ch start stop).
Proof.
  unfold encodable. induction s as [|ch s IH]; simpl; intros H pos; [discriminate H|].
  destruct (encodes c ch); simpl in H; eauto.
Qed.

(** A line whose level is ASCII is written when the console has every
    character of the message. *)
Lemma log_message_accepted (env : environment) (message level : string) :
  all_ascii level = true ->
  stdout_accepts env message = true ->
  log_message env message level = (Ok tt, [Log level message]).
Proof.
  intros Hl Hm. unfold log_message.
  rewrite encode_from_encodable; [reflexivity|].
  rewrite !encodable_app, (all_ascii_encodable _ _ Hl). exact Hm.
Qed.

Lemma log_message_ascii (env : environment) (message level : string) :
  all_ascii level = true ->
  all_ascii message = true ->
  log_message env message level = (Ok tt, [Log level message]).
Proof.
  intros Hl Hm. apply log_message_accepted; [exact Hl|].
  apply all_ascii_encodable, Hm.
Qed.

(** A line with a character the console lacks raises, with an ASCII text,
    and nothing is written. *)
Lemma log_message_rejected (env : environment) (message level : string) :
  all_ascii level = true ->
  stdout_accepts env message = false ->
  exists e,
    log_message env message level = (Raise e, []) /\
    exn_cls e = UnicodeEncodeError /\
    all_ascii (exn_str e) = true.
Proof.
  intros Hl Hm. unfold log_message.
  destruct (encode_from_unencodable (stdout_encoding env) (level ++ "] " ++ message))
    with (pos := 23) as (ch & start & stop & He).
  - rewrite !encodable_app. unfold stdout_accepts in Hm. rewrite Hm.
    rewrite !andb_false_r. reflexivity.
  - rewrite He. eexists. split; [reflexivity|]. split; [reflexivity|].
    apply encode_error_ascii.
Qed.

(** Every outcome of a log line: written, or an [UnicodeEncodeError] with
    an ASCII text. *)
Lemma log_message_cases (env : environment) (message level : string) :
  all_ascii level = true ->
  (stdout_accepts env message = true /\
   log_message env message level = (Ok tt, [Log level message])) \/
  (stdout_accepts env message = false /\
   exists e, log_message env message level = (Raise e, []) /\
             exn_cls e = UnicodeEncodeError /\ all_ascii (exn_str e) = true).
Proof.
  intros Hl. destruct (stdout_accepts env message) eqn:Hm.
  - left. split; [reflexivity|]. apply log_message_accepted; assumption.
  - right. split; [reflexivity|]. apply log_message_rejected; assumption.
Qed.

#[local] Arguments log_message : simpl never.

(* ================================================================= *)
(** ** The normalizer on well-formed documents *)

Lemma paragraph_loop_text_nodes (inlines : list value) (texts : list string) :
  Forall2 is_text_node inlines texts ->
  forall acc, paragraph_loop inlines acc = Ok (acc ++ map VStr texts)%list.
Proof.
  induction 1 as [|v s inlines texts Hv Hrest IH]; intros acc; simpl.
  - rewrite app_nil_r. reflexivity.
  - destruct Hv as (d & -> & Hty & Htx). simpl.
    unfold dict_get_default, dict_has. rewrite Hty, Htx. simpl.
    rewrite IH, <- app_assoc. reflexivity.
Qed.

Lemma extract_paragraph_text_paragraph (v : value) (texts : list string) :
  is_paragraph v texts -> extract_paragraph_text v = join "" texts.
Proof.
  intros (d & inlines & -> & _ & Hc & Hin).
  unfold extract_paragraph_text. simpl. unfold dict_has. rewrite Hc. simpl.
  rewrite (paragraph_loop_text_nodes _ _ Hin). simpl.
  unfold py_join. rewrite join_items_strs. reflexivity.
Qed.

Lemma adf_loop_paragraphs (blocks : list value) (paragraphs : list (list string)) :
  Forall2 is_paragraph blocks paragraphs ->
  forall acc, adf_loop blocks acc = Ok (acc ++ segments paragraphs)%list.
Proof.
  unfold segments.
  induction 1 as [|v texts blocks paragraphs Hv Hrest IH]; intros acc; simpl.
  - rewrite app_nil_r. reflexivity.
  - rewrite (extract_paragraph_text_paragraph _ _ Hv).
    destruct Hv as (d & inlines & -> & Hty & _). simpl.
    unfold dict_get_default. rewrite Hty. simpl.
    destruct (str_truthy (join "" texts)).
    + rewrite IH, <- app_assoc. reflexivity.
    + apply IH.
Qed.

Lemma segments_newlines (paragraphs : list (list string)) :
  Forall (Forall (fun s => newlines s = O)) paragraphs ->
  Forall (fun s => newlines s = O) (segments paragraphs).
Proof.
  unfold segments. induction 1 as [|p ps Hp Hps IH]; simpl; [constructor|].
  destruct (str_truthy (join "" p)); [constructor|]; auto using newlines_concat.
Qed.

Lemma is_text_node_text_node (texts : list string) :
  Forall2 is_text_node (map text_node texts) texts.
Proof.
  induction texts; constructor; [|assumption].
  eexists; repeat split; reflexivity.
Qed.

Lemma is_paragraph_paragraph_node (paragraphs : list (list string)) :
  Forall2 is_paragraph (map paragraph_node paragraphs) paragraphs.
Proof.
  induction paragraphs as [|p ps IH]; constructor; [|assumption].
  eexists _, _; repeat split; try reflexivity. apply is_text_node_text_node.
Qed.

Lemma is_document_adf_doc (paragraphs : list (list string)) :
  is_document (adf_doc paragraphs) paragraphs.
Proof.
  eexists _, _; repeat split; try reflexivity. apply is_paragraph_paragraph_node.
Qed.

(** Scenario B of the specification. *)
Example normalize_hello (env : environment) :
  extract_text_from_adf env (adf_doc [["Hello"]]) = (Ok "Hello", []).
Proof. reflexivity. Qed.

(** A block that is not an object makes the walk fail: the whole value is
    rendered and a warning logged. *)
Example normalize_fallback (c : codec) :
  extract_text_from_adf (on_console c (answering 201 "" (Ok (VDict []))))
                        (VDict [("content", VList [VInt 3])])
  = (Ok "{'content': [3]}",
     [Log "WARN" "Error extracting text from ADF: 'int' object has no attribute 'get'"]).
Proof. destruct c; reflexivity. Qed.

(** C1, as amended.  On a well-formed document the normalizer returns the
    texts of the paragraphs whose text is not empty, in order, joined by
    newlines, and logs nothing: a paragraph with an empty text is skipped.
    When no text node holds a newline the result has one newline less than
    there are such paragraphs (none when there is none). *)
Theorem C1_normalize_skips_empty_paragraphs
        (env : environment) (doc : value) (paragraphs : list (list string)) :
  is_document doc paragraphs ->
  extract_text_from_adf env doc = (Ok (join nl (segments paragraphs)), []) /\
  (Forall (Forall (fun s => newlines s = O)) paragraphs ->
   newlines (join nl (segments paragraphs)) = pred (List.length (segments paragraphs))).
Proof.
  intros (d & blocks & -> & Hc & Hblocks). split.
  - unfold extract_text_from_adf, adf_walk. simpl. unfold dict_has. rewrite Hc. simpl.
    rewrite (adf_loop_paragraphs _ _ Hblocks). reflexivity.
  - intros Hnl. apply newlines_join, segments_newlines, Hnl.
Qed.

Lemma C1_normalize_skips_empty_paragraphs_witness :
  extract_text_from_adf (answering 201 "" (Ok (VDict [])))
                        (adf_doc [["Hello"; " world"]; []; ["Bye"]])
  = (Ok ("Hello world" ++ nl ++ "Bye"), []) /\
  newlines ("Hello world" ++ nl ++ "Bye") = 1%nat.
Proof.
  destruct (C1_normalize_skips_empty_paragraphs
              (answering 201 "" (Ok (VDict [])))
              (adf_doc [["Hello"; " world"]; []; ["Bye"]])
              [["Hello"; " world"]; []; ["Bye"]]
              (is_document_adf_doc _)) as [Hrun Hcount].
  split.
  - exact Hrun.
  - apply Hcount. repeat constructor.
Defined.

(** C1, as stated, fails: a document of two paragraphs, the second without
    text, is normalized to the first paragraph's text alone, with no newline
    where the claim has one. *)
Lemma C1_counterexample :
  is_document (adf_doc [["Hello"]; []]) [["Hello"]; []] /\
  extract_text_from_adf (answering 201 "" (Ok (VDict []))) (adf_doc [["Hello"]; []])
  = (Ok "Hello", []) /\
  newlines "Hello" <> (2 - 1)%nat /\
  "Hello" <> join nl (map (join "") [["Hello"]; []]).
Proof.
  split; [apply is_document_adf_doc|].
  split; [reflexivity|].
  split; [vm_compute; lia | vm_compute; discriminate].
Qed.


(* ================================================================= *)
(** ** The normalizer and its warning *)

#[local] Arguments String.append : simpl never.

Lemma adf_loop_errors_ascii (items : list value) :
  forall acc e, adf_loop items acc = Raise e -> all_ascii (exn_str e) = true.
Proof.
  induction items as [|item items IH]; intros acc e; simpl; [discriminate|].
  destruct item; simpl;
    try (intros H; injection H as <-; reflexivity).
  destruct (eq_str _ "paragraph"); [|apply IH].
  destruct (str_truthy _); apply IH.
Qed.

Lemma adf_walk_errors_ascii (adf_content : value) (e : exn) :
  adf_walk adf_content = Raise e -> all_ascii (exn_str e) = true.
Proof.
  unfold adf_walk. destruct adf_content as [| | | | | |d]; simpl; try discriminate.
  unfold dict_has. destruct (dict_get d "content") as [c|]; simpl; [|discriminate].
  destruct (py_iter c) as [items|e'] eqn:Hi; simpl.
  - destruct (adf_loop items []) as [parts|e'] eqn:Hl; simpl; [discriminate|].
    intros H. injection H as <-. exact (adf_loop_errors_ascii _ _ _ Hl).
  - intros H. injection H as <-.
    destruct c; simpl in Hi; try discriminate Hi; injection Hi as <-; reflexivity.
Qed.

Lemma extract_text_from_adf_walked (env : environment) (adf_content : value) (s : string) :
  adf_walk adf_content = Ok s ->
  extract_text_from_adf env adf_content = (Ok s, []).
Proof. intros H. unfold extract_text_from_adf. rewrite H. reflexivity. Qed.

Lemma extract_text_from_adf_fell_back
      (env : environment) (adf_content : value) (e : exn) :
  adf_walk adf_content = Raise e ->
  extract_text_from_adf env adf_content
  = (Ok (py_str adf_content),
     [Log "WARN" ("Error extracting text from ADF: " ++ exn_str e)]).
Proof.
  intros H.
  assert (Hl : log_message env ("Error extracting text from ADF: " ++ exn_str e) "WARN"
               = (Ok tt, [Log "WARN" ("Error extracting text from ADF: " ++ exn_str e)])).
  { apply log_message_ascii; [reflexivity|].
    rewrite all_ascii_app, (adf_walk_errors_ascii _ _ H). reflexivity. }
  unfold extract_text_from_adf, try_except, lift. rewrite H. unfold bind.
  rewrite Hl. reflexivity.
Qed.

Lemma extract_text_from_adf_returns (env : environment) (adf_content : value) :
  exists s tr, extract_text_from_adf env adf_content = (Ok s, tr) /\ posts tr = [].
Proof.
  destruct (adf_walk adf_content) as [s|e] eqn:H.
  - rewrite (extract_text_from_adf_walked _ _ _ H). eauto.
  - rewrite (extract_text_from_adf_fell_back _ _ _ H). eauto.
Qed.

Lemma description_text_returns (env : environment) (description : value) :
  exists s tr, description_text env description = (Ok s, tr) /\ posts tr = [].
Proof.
  unfold description_text. destruct (is_dict description).
  - apply extract_text_from_adf_returns.
  - unfold ret. eauto.
Qed.

(* ================================================================= *)
(** ** The outbound call, case by case *)

Lemma creation_failed_cases (env : environment) (e : exn) :
  (stdout_accepts env (creation_error_msg e) = true /\
   creation_failed env e
   = (Ok (creation_error e), [Log "ERROR" (creation_error_msg e)])) \/
  (stdout_accepts env (creation_error_msg e) = false /\
   exists e', creation_failed env e = (Raise e', []) /\
              exn_cls e' = UnicodeEncodeError /\ all_ascii (exn_str e') = true).
Proof.
  unfold creation_failed, creation_error, creation_error_msg.
  destruct (is_request_exception e);
    match goal with |- context [log_message env ?m "ERROR"] =>
      destruct (log_message_cases env m "ERROR" eq_refl)
        as [[Ha Hl] | [Ha (e' & Hl & Hc & Hs)]] end;
    rewrite Hl; [left|right|left|right]; (split; [exact Ha|]).
  - reflexivity.
  - exists e'. split; [reflexivity|]. split; assumption.
  - reflexivity.
  - exists e'. split; [reflexivity|]. split; assumption.
Qed.

Lemma creation_failed_ascii (env : environment) (e : exn) :
  all_ascii (exn_str e) = true ->
  creation_failed env e = (Ok (creation_error e), [Log "ERROR" (creation_error_msg e)]).
Proof.
  intros He. destruct (creation_failed_cases env e) as [[_ H] | [Ha _]]; [exact H|].
  exfalso. unfold stdout_accepts in Ha.
  rewrite all_ascii_encodable in Ha; [discriminate Ha|].
  unfold creation_error_msg. rewrite all_ascii_app, He.
  destruct (is_request_exception e); reflexivity.
Qed.

Lemma create_task_body_raised
      (env : environment) (task_name task_notes : string) (e : exn) :
  destination env (asana_request env task_name task_notes) = PostRaised e ->
  create_task_body env task_name task_notes
  = (Raise e, [Log INFO "Sending request to Asana API";
               HttpPost (asana_request env task_name task_notes)]).
Proof.
  intros Hd. unfold create_task_body, requests_post.
  rewrite (log_message_ascii env "Sending request to Asana API" INFO) by reflexivity.
  rewrite Hd. reflexivity.
Qed.

Lemma status_line_ascii (resp : response) :
  all_ascii ("Asana API response status: " ++ str_int (status_code resp)) = true.
Proof. rewrite all_ascii_app, str_int_ascii. reflexivity. Qed.

Lemma create_task_body_201
      (env : environment) (task_name task_notes : string) (resp : response) :
  destination env (asana_request env task_name task_notes) = Responded resp ->
  status_code resp = 201 ->
  create_task_body env task_name task_notes
  = (created_result env task_name (json resp),
     sent_events env task_name task_notes resp).
Proof.
  intros Hd Hs. unfold create_task_body, requests_post, sent_events, created_result.
  rewrite (log_message_ascii env "Sending request to Asana API" INFO) by reflexivity.
  rewrite Hd. cbn.
  rewrite (log_message_ascii env _ INFO eq_refl (status_line_ascii resp)).
  rewrite Hs. cbn.
  destruct (json resp) as [v|e]; cbn; [|reflexivity].
  destruct (py_get v "data" (VDict [])) as [d|e]; cbn; [|reflexivity].
  destruct (py_get d "gid" (VStr "Unknown")) as [g|e]; cbn; reflexivity.
Qed.

Lemma create_task_body_not_201
      (env : environment) (task_name task_notes : string) (resp : response) :
  destination env (asana_request env task_name task_notes) = Responded resp ->
  status_code resp <> 201 ->
  (stdout_accepts env (api_error_msg resp) = true /\
   create_task_body env task_name task_notes
   = (Ok (api_error resp),
      sent_events env task_name task_notes resp
      ++ [Log "ERROR" (api_error_msg resp)])%list) \/
  (stdout_accepts env (api_error_msg resp) = false /\
   exists e, create_task_body env task_name task_notes
             = (Raise e, sent_events env task_name task_notes resp) /\
             exn_cls e = UnicodeEncodeError /\ all_ascii (exn_str e) = true).
Proof.
  intros Hd Hs. unfold create_task_body, requests_post, sent_events.
  rewrite (log_message_ascii env "Sending request to Asana API" INFO) by reflexivity.
  rewrite Hd. cbn.
  rewrite (log_message_ascii env _ INFO eq_refl (status_line_ascii resp)).
  apply Z.eqb_neq in Hs. rewrite Hs. cbn.
  fold (api_error_msg resp).
  destruct (log_message_cases env (api_error_msg resp) "ERROR" eq_refl)
    as [[Ha Hl] | [Ha (e & Hl & Hc & Hascii)]]; rewrite Hl; cbn; [left|right];
    (split; [exact Ha|]); eauto.
Qed.

Lemma created_result_is_success
      (env : environment) (task_name : string) (decoded : result value) (v : value) :
  created_result env task_name decoded = Ok v ->
  is_task_result v.
Proof.
  unfold created_result. destruct decoded as [task_data|e]; simpl; [|discriminate].
  destruct (py_get task_data "data" (VDict [])) as [d|e]; simpl; [|discriminate].
  destruct (py_get d "gid" (VStr "Unknown")) as [g|e]; simpl; [|discriminate].
  intros H. injection H as <-. eexists. split; [reflexivity|]. left. reflexivity.
Qed.

Lemma creation_error_is_task_result (e : exn) : is_task_result (creation_error e).
Proof. eexists. split; [reflexivity|]. right. reflexivity. Qed.

Lemma api_error_is_task_result (resp : response) : is_task_result (api_error resp).
Proof. eexists. split; [reflexivity|]. right. reflexivity. Qed.

Lemma posts_sent_events
      (env : environment) (task_name task_notes : string) (resp : response) :
  posts (sent_events env task_name task_notes resp)
  = [asana_request env task_name task_notes].
Proof. reflexivity. Qed.

Lemma create_asana_task_caught
      (env : environment) (task_name task_notes : string) (e : exn) :
  call_raised env task_name task_notes e ->
  exists tr0,
    posts tr0 = [asana_request env task_name task_notes] /\
    create_asana_task env task_name task_notes
    = (let (r, t') := creation_failed env e in (r, tr0 ++ t'))%list.
Proof.
  unfold create_asana_task, try_except.
  intros [Hd | (resp & Hd & Hs & Hr)].
  - rewrite (create_task_body_raised _ _ _ _ Hd).
    exists [Log INFO "Sending request to Asana API";
            HttpPost (asana_request env task_name task_notes)].
    split; reflexivity.
  - rewrite (create_task_body_201 _ _ _ _ Hd Hs), Hr.
    exists (sent_events env task_name task_notes resp).
    split; [apply posts_sent_events | reflexivity].
Qed.

(** Every run of [create_asana_task]: one request is sent; a task result
    is returned, unless the line that reports a caught exception cannot be
    written, in which case the [UnicodeEncodeError] of the write leaves the
    function. *)
Lemma create_asana_task_outcome
      (env : environment) (task_name task_notes : string) :
  exists tr,
    posts tr = [asana_request env task_name task_notes] /\
    ((exists result,
         create_asana_task env task_name task_notes = (Ok result, tr) /\
         is_task_result result) \/
     (exists e e0,
         create_asana_task env task_name task_notes = (Raise e, tr) /\
         exn_cls e = UnicodeEncodeError /\
         all_ascii (exn_str e) = true /\
         call_raised env task_name task_notes e0 /\
         stdout_accepts env (creation_error_msg e0) = false)).
Proof.
  assert (Hcaught : forall e0,
             call_raised env task_name task_notes e0 ->
             exists tr,
               posts tr = [asana_request env task_name task_notes] /\
               ((exists result,
                    create_asana_task env task_name task_notes = (Ok result, tr) /\
                    is_task_result result) \/
                (exists e e1,
                    create_asana_task env task_name task_notes = (Raise e, tr) /\
                    exn_cls e = UnicodeEncodeError /\
                    all_ascii (exn_str e) = true /\
                    call_raised env task_name task_notes e1 /\
                    stdout_accepts env (creation_error_msg e1) = false))).
  { intros e0 Hr.
    destruct (create_asana_task_caught _ _ _ _ Hr) as (tr0 & Hp & Hrun).
    destruct (creation_failed_cases env e0)
      as [[Ha Hf] | [Ha (e' & Hf & Hc & Hascii)]]; rewrite Hf in Hrun.
    - eexists. split; [|left; eexists; split;
                        [exact Hrun | apply creation_error_is_task_result]].
      rewrite posts_app, Hp. reflexivity.
    - eexists. split; [|right; exists e', e0; repeat split; eauto].
      rewrite posts_app, Hp. reflexivity. }
  destruct (destination env (asana_request env task_name task_notes))
    as [resp|e0] eqn:Hd.
  - destruct (Z.eq_dec (status_code resp) 201) as [Hs|Hs].
    + destruct (created_result env task_name (json resp)) as [v|e0] eqn:Hr.
      * exists (sent_events env task_name task_notes resp).
        split; [reflexivity|]. left. exists v. split.
        -- unfold create_asana_task, try_except.
           rewrite (create_task_body_201 _ _ _ _ Hd Hs), Hr. reflexivity.
        -- exact (created_result_is_success _ _ _ _ Hr).
      * apply (Hcaught e0). right. exists resp. auto.
    + unfold create_asana_task, try_except.
      destruct (create_task_body_not_201 _ _ _ _ Hd Hs)
        as [[Ha Hb] | [Ha (e & Hb & Hc & Hascii)]]; rewrite Hb.
      * eexists. split; [|left; eexists; split;
                          [reflexivity | apply api_error_is_task_result]].
        rewrite posts_app. reflexivity.
      * rewrite (creation_failed_ascii env e Hascii).
        eexists. split; [|left; eexists; split;
                          [reflexivity | apply creation_error_is_task_result]].
        rewrite posts_app. reflexivity.
  - apply (Hcaught e0). left. exact Hd.
Qed.

Lemma create_asana_task_posts
      (env : environment) (task_name task_notes : string) :
  posts (snd (create_asana_task env task_name task_notes))
  = [asana_request env task_name task_notes].
Proof.
  destruct (create_asana_task_outcome env task_name task_notes)
    as (tr & Hp & [(result & Hrun & _) | (e & e0 & Hrun & _)]);
    rewrite Hrun; exact Hp.
Qed.

Lemma create_asana_task_created
      (env : environment) (task_name task_notes : string)
      (resp : response) (body data : dict) :
  destination env (asana_request env task_name task_notes) = Responded resp ->
  status_code resp = 201 ->
  json resp = Ok (VDict body) ->
  dict_get_default body "data" (VDict []) = VDict data ->
  create_asana_task env task_name task_notes
  = (Ok (VDict [("status", VStr "success");
                ("message", VStr "Task created successfully in Asana");
                ("task_id", dict_get_default data "gid" (VStr "Unknown"));
                ("task_name", VStr task_name);
                ("asana_url",
                 VStr (("https://app.asana.com/0/"
                        ++ py_str (getenv_value (ASANA_PROJECT_ID env)))
                       ++ "/" ++ py_str (dict_get_default data "gid" (VStr "Unknown"))))]),
     sent_events env task_name task_notes resp).
Proof.
  intros Hd Hs Hj Hdata. unfold create_asana_task, try_except.
  rewrite (create_task_body_201 _ _ _ _ Hd Hs). unfold created_result.
  rewrite Hj. cbn. rewrite Hdata. reflexivity.
Qed.

Lemma create_asana_task_not_created
      (env : environment) (task_name task_notes : string) (resp : response) :
  destination env (asana_request env task_name task_notes) = Responded resp ->
  status_code resp <> 201 ->
  stdout_accepts env (api_error_msg resp) = true ->
  create_asana_task env task_name task_notes
  = (Ok (api_error resp),
     sent_events env task_name task_notes resp
     ++ [Log "ERROR" (api_error_msg resp)])%list.
Proof.
  intros Hd Hs Ha. unfold create_asana_task, try_except.
  destruct (create_task_body_not_201 _ _ _ _ Hd Hs)
    as [[_ Hb] | [Ha' _]]; [rewrite Hb; reflexivity | congruence].
Qed.

Lemma create_asana_task_raised
      (env : environment) (task_name task_notes : string) (e : exn) :
  call_raised env task_name task_notes e ->
  stdout_accepts env (creation_error_msg e) = true ->
  fst (create_asana_task env task_name task_notes) = Ok (creation_error e).
Proof.
  intros Hr Ha.
  destruct (create_asana_task_caught _ _ _ _ Hr) as (tr0 & _ & Hrun).
  destruct (creation_failed_cases env e) as [[_ Hf] | [Ha' _]]; [|congruence].
  rewrite Hrun, Hf. reflexivity.
Qed.

(* ================================================================= *)
(** ** The forwarder, case by case *)

#[local] Arguments create_asana_task : simpl never.
#[local] Arguments description_text : simpl never.
#[local] Arguments asana_task_name : simpl never.
#[local] Arguments asana_task_notes : simpl never.
#[local] Arguments processing_line : simpl never.

Lemma py_get_errors_ascii (v : value) (k : string) (default : value) (e : exn) :
  py_get v k default = Raise e -> all_ascii (exn_str e) = true.
Proof.
  destruct v; simpl; intros H; try discriminate H;
    injection H as <-; reflexivity.
Qed.

Lemma issue_fields_errors_ascii (data : value) (e : exn) :
  issue_fields data = Raise e -> all_ascii (exn_str e) = true.
Proof.
  unfold issue_fields.
  destruct (py_get data "issue" (VDict [])) as [issue|e1] eqn:H1; simpl;
    [|intros H; injection H as <-; exact (py_get_errors_ascii _ _ _ _ H1)].
  destruct (py_get issue "key" (VStr "UNKNOWN")) as [key|e2] eqn:H2; simpl;
    [|intros H; injection H as <-; exact (py_get_errors_ascii _ _ _ _ H2)].
  destruct (py_get issue "fields" (VDict [])) as [fields|e3] eqn:H3; simpl;
    [|intros H; injection H as <-; exact (py_get_errors_ascii _ _ _ _ H3)].
  destruct (py_get fields "summary" (VStr "No Title")) as [summary|e4] eqn:H4; simpl;
    [|intros H; injection H as <-; exact (py_get_errors_ascii _ _ _ _ H4)].
  destruct (py_get fields "description" (VStr "")) as [description|e5] eqn:H5; simpl;
    [discriminate|intros H; injection H as <-; exact (py_get_errors_ascii _ _ _ _ H5)].
Qed.

Lemma processing_logged (env : environment) (e : exn) :
  all_ascii (exn_str e) = true ->
  log_message env ("Error processing webhook data: " ++ exn_str e) "ERROR"
  = (Ok tt, [Log "ERROR" ("Error processing webhook data: " ++ exn_str e)]).
Proof.
  intros He. apply log_message_ascii; [reflexivity|].
  rewrite all_ascii_app, He. reflexivity.
Qed.

(** A payload whose fields cannot be read is answered with a processing
    error; nothing is sent. *)
Lemma webhook_rejects (env : environment) (data : value) (e : exn) :
  issue_fields data = Raise e ->
  create_asana_task_from_jira_webhook env data =
  (Ok (processing_error e),
   [Log INFO "Starting Jira to Asana sync process";
    Log "ERROR" ("Error processing webhook data: " ++ exn_str e);
    LogTraceback e]).
Proof.
  intros Hf. unfold create_asana_task_from_jira_webhook, webhook_body.
  rewrite (log_message_ascii env "Starting Jira to Asana sync process" INFO)
    by reflexivity.
  rewrite Hf. cbn.
  rewrite (processing_logged env e (issue_fields_errors_ascii _ _ Hf)).
  reflexivity.
Qed.

Lemma key_accepted (env : environment) (jira_key summary : value) :
  stdout_accepts env (processing_line jira_key summary) = true ->
  stdout_accepts env ("Successfully created Asana task for " ++ py_str jira_key) = true.
Proof.
  unfold stdout_accepts, processing_line. rewrite !encodable_app.
  intros H. apply andb_prop in H. destruct H as [_ H].
  apply andb_prop in H. destruct H as [H _]. rewrite H. reflexivity.
Qed.

(** A payload whose fields can be read but whose line 113 cannot be
    written is answered with a processing error; nothing is sent. *)
Lemma webhook_unwritable
      (env : environment) (data jira_key summary description : value) :
  issue_fields data = Ok (jira_key, summary, description) ->
  stdout_accepts env (processing_line jira_key summary) = false ->
  exists e tr,
    create_asana_task_from_jira_webhook env data = (Ok (processing_error e), tr) /\
    posts tr = [] /\
    exn_cls e = UnicodeEncodeError.
Proof.
  intros Hf Ha.
  destruct (description_text_returns env description) as (text & tr1 & Hd & Hp1).
  destruct (log_message_rejected env (processing_line jira_key summary) INFO
              eq_refl Ha) as (e & Hl & Hc & Hascii).
  unfold create_asana_task_from_jira_webhook, webhook_body.
  rewrite (log_message_ascii env "Starting Jira to Asana sync process" INFO)
    by reflexivity.
  rewrite Hf. cbn. rewrite Hd. cbn. rewrite Hl. cbn.
  rewrite (processing_logged env e Hascii). cbn.
  exists e. eexists. split; [reflexivity|]. split; [|exact Hc].
  cbn [posts]. rewrite !posts_app, Hp1. reflexivity.
Qed.

(** A payload whose fields can be read and whose line 113 can be written
    is forwarded: one request is sent, with the name and the notes composed
    from the fields; the result of [create_asana_task] is returned, or the
    processing error of the exception it raised. *)
Lemma webhook_forwards
      (env : environment) (data jira_key summary description : value) :
  issue_fields data = Ok (jira_key, summary, description) ->
  stdout_accepts env (processing_line jira_key summary) = true ->
  exists text tr1 tr2 tr,
    description_text env description = (Ok text, tr1) /\
    posts tr1 = [] /\
    posts tr = [asana_request env (asana_task_name jira_key summary)
                              (asana_task_notes jira_key summary text)] /\
    ((exists r,
         create_asana_task env (asana_task_name jira_key summary)
                           (asana_task_notes jira_key summary text)
         = (Ok (VDict r), tr2) /\
         is_task_result (VDict r) /\
         create_asana_task_from_jira_webhook env data = (Ok (VDict r), tr) /\
         tr = (Log INFO "Starting Jira to Asana sync process"
               :: tr1
               ++ Log INFO (processing_line jira_key summary)
               :: tr2
               ++ (if eq_str (dict_get_default r "status" VNone) "success"
                   then [Log INFO ("Successfully created Asana task for "
                                   ++ py_str jira_key)]
                   else []))%list) \/
     (exists e e0,
         create_asana_task env (asana_task_name jira_key summary)
                           (asana_task_notes jira_key summary text)
         = (Raise e, tr2) /\
         exn_cls e = UnicodeEncodeError /\
         call_raised env (asana_task_name jira_key summary)
                     (asana_task_notes jira_key summary text) e0 /\
         stdout_accepts env (creation_error_msg e0) = false /\
         create_asana_task_from_jira_webhook env data
         = (Ok (processing_error e), tr))).
Proof.
  intros Hf Ha.
  destruct (description_text_returns env description) as (text & tr1 & Hd & Hp1).
  destruct (create_asana_task_outcome env (asana_task_name jira_key summary)
              (asana_task_notes jira_key summary text))
    as (tr2 & Hp2 & Hout).
  exists text, tr1, tr2.
  unfold create_asana_task_from_jira_webhook, webhook_body.
  rewrite (log_message_ascii env "Starting Jira to Asana sync process" INFO)
    by reflexivity.
  rewrite Hf. cbn. rewrite Hd. cbn.
  rewrite (log_message_accepted env _ INFO eq_refl Ha). cbn.
  destruct Hout as [(result & Hc & Hres) | (e & e0 & Hc & Hcls & Hascii & Hr & Hrej)];
    rewrite Hc; cbn.
  - assert (Hres' := Hres). destruct Hres as (r & -> & Hs).
    unfold dict_get_default.
    destruct Hs as [Hs|Hs]; cbn; rewrite Hs; cbn.
    + rewrite (log_message_accepted env _ INFO eq_refl (key_accepted _ _ _ Ha)). cbn.
      eexists. split; [reflexivity|]. split; [exact Hp1|]. split;
        [|left; exists r; split; [reflexivity|]; split; [exact Hres'|];
          split; [reflexivity | rewrite ?Hs; reflexivity]].
      repeat (cbn [posts]; rewrite ?posts_app). rewrite Hp1, Hp2. reflexivity.
    + eexists. split; [reflexivity|]. split; [exact Hp1|]. split;
        [|left; exists r; split; [reflexivity|]; split; [exact Hres'|];
          split; [reflexivity | rewrite ?Hs; reflexivity]].
      repeat (cbn [posts]; rewrite ?posts_app). rewrite Hp1, Hp2. reflexivity.
  - rewrite (processing_logged env e Hascii). cbn.
    eexists. split; [reflexivity|]. split; [exact Hp1|]. split;
      [|right; exists e, e0; repeat split; assumption || reflexivity].
    repeat (cbn [posts]; rewrite ?posts_app). rewrite Hp1, Hp2. reflexivity.
Qed.

Lemma forwarder_returns (env : environment) (data : value) :
  exists result tr,
    create_asana_task_from_jira_webhook env data = (Ok result, tr) /\
    is_task_result result /\
    (List.length (posts tr) <= 1)%nat.
Proof.
  assert (Hproc : forall e, is_task_result (processing_error e)).
  { intros e. eexists. split; [reflexivity|]. right. reflexivity. }
  destruct (issue_fields data) as [[[k s] d]|e] eqn:Hf.
  - destruct (stdout_accepts env (processing_line k s)) eqn:Ha.
    + destruct (webhook_forwards env _ _ _ _ Hf Ha)
        as (text & tr1 & tr2 & tr & _ & _ & Hposts &
            [(r & _ & Hres & Hrun & _) | (e & e0 & _ & _ & _ & _ & Hrun)]);
        rewrite Hrun; do 2 eexists; (split; [reflexivity|]);
        rewrite Hposts; auto.
    + destruct (webhook_unwritable env _ _ _ _ Hf Ha) as (e & tr & Hrun & Hp & _).
      rewrite Hrun. do 2 eexists. split; [reflexivity|]. rewrite Hp. auto.
  - rewrite (webhook_rejects env _ _ Hf). do 2 eexists.
    split; [reflexivity|]. split; [apply Hproc | simpl; lia].
Qed.

Lemma forwarded_posts
      (env : environment) (data jira_key summary description : value)
      (text : string) (tr1 : list event) :
  issue_fields data = Ok (jira_key, summary, description) ->
  description_text env description = (Ok text, tr1) ->
  (stdout_accepts env (processing_line jira_key summary) = true /\
   posts (snd (create_asana_task_from_jira_webhook env data))
   = [asana_request env (asana_task_name jira_key summary)
                    (asana_task_notes jira_key summary text)]) \/
  (stdout_accepts env (processing_line jira_key summary) = false /\
   posts (snd (create_asana_task_from_jira_webhook env data)) = []).
Proof.
  intros Hf Hd.
  destruct (stdout_accepts env (processing_line jira_key summary)) eqn:Ha.
  - left. split; [reflexivity|].
    destruct (webhook_forwards env _ _ _ _ Hf Ha)
      as (text' & tr1' & tr2 & tr & Hd' & _ & Hposts &
          [(r & _ & _ & Hrun & _) | (e & e0 & _ & _ & _ & _ & Hrun)]);
      rewrite Hd in Hd'; injection Hd' as <- _; rewrite Hrun; exact Hposts.
  - right. split; [reflexivity|].
    destruct (webhook_unwritable env _ _ _ _ Hf Ha) as (e & tr & Hrun & Hp & _).
    rewrite Hrun. exact Hp.
Qed.

Lemma posted_asana_request (env : environment) (task_name task_notes : string) :
  posted_field "name" (asana_request env task_name task_notes) = Some (VStr task_name) /\
  posted_field "notes" (asana_request env task_name task_notes) = Some (VStr task_notes).
Proof. split; reflexivity. Qed.

Lemma forwarded_notes
      (env : environment) (data jira_key summary description : value)
      (text : string) (tr1 : list event) :
  issue_fields data = Ok (jira_key, summary, description) ->
  description_text env description = (Ok text, tr1) ->
  stdout_accepts env (processing_line jira_key summary) = true ->
  posted "notes" (create_asana_task_from_jira_webhook env data)
  = [Some (VStr (asana_task_notes jira_key summary text))].
Proof.
  intros Hf Hd Ha. unfold posted.
  destruct (forwarded_posts env _ _ _ _ _ _ Hf Hd) as [[_ Hp] | [Ha' _]];
    [|congruence].
  rewrite Hp. unfold map. rewrite (proj2 (posted_asana_request _ _ _)). reflexivity.
Qed.

Lemma forwarded_name
      (env : environment) (data jira_key summary description : value) :
  issue_fields data = Ok (jira_key, summary, description) ->
  stdout_accepts env (processing_line jira_key summary) = true ->
  posted "name" (create_asana_task_from_jira_webhook env data)
  = [Some (VStr (asana_task_name jira_key summary))].
Proof.
  intros Hf Ha. unfold posted.
  destruct (description_text_returns env description) as (text & tr1 & Hd & _).
  destruct (forwarded_posts env _ _ _ _ _ _ Hf Hd) as [[_ Hp] | [Ha' _]];
    [|congruence].
  rewrite Hp. unfold map. rewrite (proj1 (posted_asana_request _ _ _)). reflexivity.
Qed.

Lemma issue_fields_of_objects (data : value) (issue fields : dict) :
  py_get data "issue" (VDict []) = Ok (VDict issue) ->
  dict_get_default issue "fields" (VDict []) = VDict fields ->
  issue_fields data =
  Ok (dict_get_default issue "key" (VStr "UNKNOWN"),
      dict_get_default fields "summary" (VStr "No Title"),
      dict_get_default fields "description" (VStr "")).
Proof.
  intros Hi Hf. unfold issue_fields. rewrite Hi. simpl. rewrite Hf. reflexivity.
Qed.

Lemma issue_fields_not_object (data : value) :
  is_dict data = false -> issue_fields data = Raise (no_attribute data "get").
Proof. destruct data; simpl; intros H; [reflexivity .. | discriminate H]. Qed.

Lemma append_empty_r (s : string) : s ++ "" = s.
Proof.
  induction s as [|c s IH]; [reflexivity|].
  change (String c (s ++ "") = String c s). congruence.
Qed.

Lemma str_truthy_false (s : string) : str_truthy s = false <-> s = "".
Proof. destruct s; simpl; split; congruence. Qed.

(* ================================================================= *)
(** ** The notes and the name of the forwarded task *)

(** C2, as amended.  For every payload whose fields can be read and whose
    line 113 ("Processing Jira issue: {key} - {summary}") the console can
    write, one request is sent and its notes begin with the two lines
    ["Jira Issue: {key}"] and ["Original Summary: {summary}"] and a blank
    line; when the description is absent or otherwise false (and not an
    object) nothing follows them. *)
Theorem C2_notes_begin_with_jira_issue
        (env : environment) (data jira_key summary description : value) :
  issue_fields data = Ok (jira_key, summary, description) ->
  stdout_accepts env ("Processing Jira issue: " ++ py_str jira_key
                      ++ " - " ++ py_str summary) = true ->
  exists rest,
    posted "notes" (create_asana_task_from_jira_webhook env data)
    = [Some (VStr (("Jira Issue: " ++ py_str jira_key ++ nl
                    ++ "Original Summary: " ++ py_str summary ++ nl ++ nl) ++ rest))] /\
    (is_dict description || truthy description = false -> rest = "").
Proof.
  intros Hf Ha.
  destruct (description_text_returns env description) as (text & tr1 & Hd & _).
  rewrite (forwarded_notes env _ _ _ _ _ _ Hf Hd Ha).
  unfold asana_task_notes, notes_header.
  destruct (str_truthy text) eqn:Ht.
  - eexists. split; [reflexivity|].
    intros Hd'. apply orb_false_elim in Hd'. destruct Hd' as [Hdict Htruthy].
    unfold description_text, ret in Hd. rewrite Hdict, Htruthy in Hd.
    injection Hd as <- _. discriminate Ht.
  - exists "". split; [|reflexivity].
    rewrite append_empty_r. reflexivity.
Qed.

Lemma C2_notes_begin_with_jira_issue_witness :
  posted "notes" (create_asana_task_from_jira_webhook
                    (answering 201 "" (Ok (VDict []))) (issue_event "ABC-1" "Fix bug" []))
  = [Some (VStr ("Jira Issue: ABC-1" ++ nl ++ "Original Summary: Fix bug" ++ nl ++ nl))].
Proof.
  destruct (C2_notes_begin_with_jira_issue
              (answering 201 "" (Ok (VDict []))) (issue_event "ABC-1" "Fix bug" [])
              (VStr "ABC-1") (VStr "Fix bug") (VStr "") eq_refl eq_refl)
    as (rest & Hn & Hrest).
  rewrite (Hrest eq_refl) in Hn. exact Hn.
Defined.

(** C2, as stated, fails: for the issue ABC-1 with summary "Fix bug" and no
    description the notes sent are
    ["Jira Issue: ABC-1\nOriginal Summary: Fix bug\n\n"]; they begin with
    "Jira Issue: ", not with "Issue: ".  And on a console that encodes ASCII
    only, the summary "Caf\xe9" makes the print of line 113 raise: no notes
    are composed or sent. *)
Lemma C2_counterexample :
  posted "notes" (create_asana_task_from_jira_webhook
                    (answering 201 "" (Ok (VDict []))) (issue_event "ABC-1" "Fix bug" []))
  = [Some (VStr ("Jira Issue: ABC-1" ++ nl ++ "Original Summary: Fix bug" ++ nl ++ nl))] /\
  "Jira Issue: ABC-1" ++ nl ++ "Original Summary: Fix bug" ++ nl ++ nl
  <> "Issue: ABC-1" ++ nl ++ "Original Summary: Fix bug" ++ nl ++ nl /\
  posted "notes" (create_asana_task_from_jira_webhook
                    (on_console ASCII (answering 201 "" (Ok (VDict []))))
                    (issue_event "ABC-1" cafe [])) = [].
Proof.
  split; [reflexivity|]. split; [vm_compute; discriminate | reflexivity].
Qed.

(** C7.  For every payload whose fields can be read, the notes that the
    forwarder builds are the two header lines and the blank line followed by
    a section that is empty exactly when the normalized description is
    empty, and is ["Description:"], a newline and the normalized text
    otherwise: no other notes are ever sent, and these are sent, once, when
    the console can write line 113. *)
Theorem C7_description_section
        (env : environment) (data jira_key summary description : value) :
  issue_fields data = Ok (jira_key, summary, description) ->
  exists text tr section,
    description_text env description = (Ok text, tr) /\
    (section = "" <-> text = "") /\
    (text <> "" -> section = "Description:" ++ nl ++ text) /\
    (posted "notes" (create_asana_task_from_jira_webhook env data) = [] \/
     posted "notes" (create_asana_task_from_jira_webhook env data)
     = [Some (VStr (notes_header jira_key summary ++ section))]) /\
    (stdout_accepts env (processing_line jira_key summary) = true ->
     posted "notes" (create_asana_task_from_jira_webhook env data)
     = [Some (VStr (notes_header jira_key summary ++ section))]).
Proof.
  intros Hf.
  destruct (description_text_returns env description) as (text & tr1 & Hd & _).
  exists text, tr1.
  assert (Hsection : exists section,
             asana_task_notes jira_key summary text
             = notes_header jira_key summary ++ section /\
             (section = "" <-> text = "") /\
             (text <> "" -> section = "Description:" ++ nl ++ text)).
  { unfold asana_task_notes.
    destruct text as [|c text]; simpl str_truthy; cbv iota.
    - exists "". rewrite append_empty_r. repeat split; congruence.
    - exists ("Description:" ++ nl ++ String c text).
      repeat split; try reflexivity; try congruence.
      intros H. discriminate H. }
  destruct Hsection as (section & Hnotes & Hiff & Hsec).
  exists section. split; [exact Hd|]. split; [exact Hiff|]. split; [exact Hsec|].
  rewrite <- Hnotes. split.
  - unfold posted.
    destruct (forwarded_posts env _ _ _ _ _ _ Hf Hd) as [[_ Hp] | [_ Hp]];
      rewrite Hp; [right | left; reflexivity].
    unfold map. rewrite (proj2 (posted_asana_request _ _ _)). reflexivity.
  - intros Ha. exact (forwarded_notes env _ _ _ _ _ _ Hf Hd Ha).
Qed.

Lemma C7_description_section_witness :
  posted "notes" (create_asana_task_from_jira_webhook
                    (answering 201 "" (Ok (VDict [])))
                    (issue_event "ABC-1" "Fix bug"
                                 [("description", adf_doc [["Hello"]])]))
  = [Some (VStr ("Jira Issue: ABC-1" ++ nl ++ "Original Summary: Fix bug" ++ nl ++ nl
                 ++ "Description:" ++ nl ++ "Hello"))].
Proof.
  destruct (C7_description_section
              (answering 201 "" (Ok (VDict [])))
              (issue_event "ABC-1" "Fix bug" [("description", adf_doc [["Hello"]])])
              (VStr "ABC-1") (VStr "Fix bug") (adf_doc [["Hello"]]) eq_refl)
    as (text & tr & section & Hd & _ & Hsec & _ & Hsent).
  injection Hd as <- _.
  rewrite (Hsec ltac:(discriminate)) in Hsent. exact (Hsent eq_refl).
Defined.

(** C9, as amended.  For every payload that is an object whose "issue"
    member, when present, is an object whose "fields" member, when present,
    is an object, and whose line 113 the console can write, one request is
    sent and its name is ["[{key}] {summary}"], with "UNKNOWN" for an absent
    key and "No Title" for an absent summary. *)
Theorem C9_task_name
        (env : environment) (data : value) (issue fields : dict) :
  py_get data "issue" (VDict []) = Ok (VDict issue) ->
  dict_get_default issue "fields" (VDict []) = VDict fields ->
  stdout_accepts env
    ("Processing Jira issue: "
     ++ py_str (dict_get_default issue "key" (VStr "UNKNOWN")) ++ " - "
     ++ py_str (dict_get_default fields "summary" (VStr "No Title"))) = true ->
  posted "name" (create_asana_task_from_jira_webhook env data)
  = [Some (VStr ("[" ++ py_str (dict_get_default issue "key" (VStr "UNKNOWN"))
                 ++ "] "
                 ++ py_str (dict_get_default fields "summary" (VStr "No Title"))))].
Proof.
  intros Hi Hfields Ha.
  exact (forwarded_name env _ _ _ _ (issue_fields_of_objects _ _ _ Hi Hfields) Ha).
Qed.

Lemma C9_task_name_witness :
  posted "name" (create_asana_task_from_jira_webhook
                   (answering 201 "" (Ok (VDict [])))
                   (VDict [("issue", VDict [("fields", VDict [])])]))
  = [Some (VStr "[UNKNOWN] No Title")] /\
  posted "name" (create_asana_task_from_jira_webhook
                   (failing (Exn Timeout "timed out")) (issue_event "ABC-1" "Fix bug" []))
  = [Some (VStr "[ABC-1] Fix bug")].
Proof.
  split.
  - exact (C9_task_name (answering 201 "" (Ok (VDict [])))
                        (VDict [("issue", VDict [("fields", VDict [])])])
                        [("fields", VDict [])] [] eq_refl eq_refl eq_refl).
  - exact (C9_task_name (failing (Exn Timeout "timed out"))
                        (issue_event "ABC-1" "Fix bug" [])
                        [("key", VStr "ABC-1"); ("fields", VDict [("summary", VStr "Fix bug")])]
                        [("summary", VStr "Fix bug")] eq_refl eq_refl eq_refl).
Defined.

(** C9, as stated, fails: on a console that encodes ASCII only, the issue
    ABC-1 with the summary "Caf\xe9" makes the print of line 113 raise; the
    forwarder answers with a processing error and no task name is produced
    or sent. *)
Lemma C9_counterexample :
  issue_fields (issue_event "ABC-1" cafe [])
  = Ok (VStr "ABC-1", VStr cafe, VStr "") /\
  create_asana_task_from_jira_webhook
    (on_console ASCII (answering 201 "" (Ok (VDict []))))
    (issue_event "ABC-1" cafe [])
  = (Ok (VDict [("status", VStr "error");
                ("message",
                 VStr ("Error processing webhook data: 'ascii' codec can't encode "
                       ++ "character '\xe9' in position 63: "
                       ++ "ordinal not in range(128)"));
                ("error_type", VStr "processing")]),
     [Log INFO "Starting Jira to Asana sync process";
      Log "ERROR" ("Error processing webhook data: 'ascii' codec can't encode "
                   ++ "character '\xe9' in position 63: ordinal not in range(128)");
      LogTraceback
        (Exn UnicodeEncodeError
             ("'ascii' codec can't encode character '\xe9' in position 63: "
              ++ "ordinal not in range(128)"))]) /\
  posted "name" (create_asana_task_from_jira_webhook
                   (on_console ASCII (answering 201 "" (Ok (VDict []))))
                   (issue_event "ABC-1" cafe [])) = [].
Proof. repeat split. Qed.

(** C8.  A description that is a str is its own text: the forwarder takes
    it as it is, without calling the normalizer, and the normalizer itself
    returns a str unchanged without a walk or a warning; a payload whose
    fields hold no description has the empty str for description, and its
    text is empty. *)
Theorem C8_plain_string_unchanged (env : environment) :
  (forall s : string,
      description_text env (VStr s) = (Ok s, []) /\
      extract_text_from_adf env (VStr s) = (Ok s, [])) /\
  (forall (data : value) (issue fields : dict),
      py_get data "issue" (VDict []) = Ok (VDict issue) ->
      dict_get_default issue "fields" (VDict []) = VDict fields ->
      dict_get fields "description" = None ->
      exists jira_key summary,
        issue_fields data = Ok (jira_key, summary, VStr "") /\
        description_text env (VStr "") = (Ok "", [])).
Proof.
  split.
  - intros [|c s]; split; reflexivity.
  - intros data issue fields Hi Hfields Hd.
    rewrite (issue_fields_of_objects _ _ _ Hi Hfields).
    unfold dict_get_default at 3. rewrite Hd. eauto.
Qed.

Lemma C8_plain_string_unchanged_witness :
  (description_text (answering 201 "" (Ok (VDict []))) (VStr "{not a document}")
   = (Ok "{not a document}", []) /\
   extract_text_from_adf (answering 201 "" (Ok (VDict []))) (VStr "{not a document}")
   = (Ok "{not a document}", [])) /\
  exists jira_key summary,
    issue_fields (issue_event "ABC-1" "Fix bug" []) = Ok (jira_key, summary, VStr "") /\
    description_text (answering 201 "" (Ok (VDict []))) (VStr "") = (Ok "", []).
Proof.
  destruct (C8_plain_string_unchanged (answering 201 "" (Ok (VDict []))))
    as [Hstr Habsent].
  split.
  - apply Hstr.
  - apply (Habsent (issue_event "ABC-1" "Fix bug" [])
                   [("key", VStr "ABC-1"); ("fields", VDict [("summary", VStr "Fix bug")])]
                   [("summary", VStr "Fix bug")]); reflexivity.
Defined.

(* ================================================================= *)
(** ** Classification of the destination's answer *)

(** C3, as amended.  When the destination answers with a status other than
    201 and the console can write the error line, the result is an error of
    type "asana_api" that carries the status code and a message holding the
    status and the raw body; when the call raises a [RequestException]
    (connection error, timeout) and the console can write the error line,
    the result is an error of type "network". *)
Theorem C3_failure_classification
        (env : environment) (task_name task_notes : string) :
  (forall resp,
      destination env (asana_request env task_name task_notes) = Responded resp ->
      status_code resp <> 201 ->
      stdout_accepts env ("Asana API Error: " ++ str_int (status_code resp)
                          ++ " - " ++ text resp) = true ->
      fst (create_asana_task env task_name task_notes)
      = Ok (VDict [("status", VStr "error");
                   ("message", VStr ("Asana API Error: " ++ str_int (status_code resp)
                                     ++ " - " ++ text resp));
                   ("error_type", VStr "asana_api");
                   ("status_code", VInt (status_code resp))])) /\
  (forall e,
      destination env (asana_request env task_name task_notes) = PostRaised e ->
      is_request_exception e = true ->
      stdout_accepts env ("Network error while calling Asana API: " ++ exn_str e)
      = true ->
      fst (create_asana_task env task_name task_notes)
      = Ok (VDict [("status", VStr "error");
                   ("message", VStr ("Network error while calling Asana API: "
                                     ++ exn_str e));
                   ("error_type", VStr "network")])).
Proof.
  split.
  - intros resp Hd Hs Ha.
    rewrite (create_asana_task_not_created _ _ _ _ Hd Hs Ha). reflexivity.
  - intros e Hd He Ha.
    assert (Hmsg : creation_error_msg e
                   = "Network error while calling Asana API: " ++ exn_str e).
    { unfold creation_error_msg. rewrite He. reflexivity. }
    rewrite (create_asana_task_raised env task_name task_notes e).
    + unfold creation_error. rewrite Hmsg, He. reflexivity.
    + left. exact Hd.
    + rewrite Hmsg. exact Ha.
Qed.

Lemma C3_failure_classification_witness :
  fst (create_asana_task (answering 500 "Internal Server Error" (Raise (Exn ValueError "")))
                         "[ABC-1] Fix bug" "notes")
  = Ok (VDict [("status", VStr "error");
               ("message", VStr "Asana API Error: 500 - Internal Server Error");
               ("error_type", VStr "asana_api");
               ("status_code", VInt 500)]) /\
  fst (create_asana_task (failing (Exn Timeout "Read timed out.")) "[ABC-1] Fix bug" "notes")
  = Ok (VDict [("status", VStr "error");
               ("message", VStr "Network error while calling Asana API: Read timed out.");
               ("error_type", VStr "network")]).
Proof.
  split.
  - apply (proj1 (C3_failure_classification
                    (answering 500 "Internal Server Error" (Raise (Exn ValueError "")))
                    "[ABC-1] Fix bug" "notes")
                 (Response 500 "Internal Server Error" (Raise (Exn ValueError "")))).
    + reflexivity.
    + simpl. lia.
    + reflexivity.
  - apply (proj2 (C3_failure_classification
                    (failing (Exn Timeout "Read timed out.")) "[ABC-1] Fix bug" "notes")
                 (Exn Timeout "Read timed out.")); reflexivity.
Defined.

(** C3, as stated, fails: on status 500 the error type of the result is
    "asana_api", not "api".  And the error line is printed inside the [try]
    block: on a console that encodes ASCII only, a status 500 whose body
    holds U+00E9 makes the print of line 81 raise, and the result is an
    error of type "task_creation", without status code. *)
Lemma C3_counterexample :
  (exists r,
      fst (create_asana_task (answering 500 "Internal Server Error" (Raise (Exn ValueError "")))
                             "[ABC-1] Fix bug" "notes") = Ok (VDict r) /\
      dict_get r "status_code" = Some (VInt 500) /\
      dict_get r "error_type" = Some (VStr "asana_api") /\
      dict_get r "error_type" <> Some (VStr "api")) /\
  fst (create_asana_task (on_console ASCII (answering 500 cafe (Raise (Exn ValueError ""))))
                         "[ABC-1] Fix bug" "notes")
  = Ok (VDict [("status", VStr "error");
               ("message",
                VStr ("Unexpected error creating Asana task: 'ascii' codec can't "
                      ++ "encode character '\xe9' in position 56: "
                      ++ "ordinal not in range(128)"));
               ("error_type", VStr "task_creation")]).
Proof.
  split; [|reflexivity].
  eexists. split; [reflexivity|].
  split; [reflexivity|]. split; [reflexivity|]. discriminate.
Qed.

(** C5, as amended.  When the destination answers 201 and the body decodes
    to an object whose "data" member is absent or an object, the result is a
    success whose task id is the "gid" member of "data", or "Unknown" when
    "data" or its "gid" is absent, and whose URL is made of the project
    identifier and the task id and ends in "/" and the task id. *)
Theorem C5_created
        (env : environment) (task_name task_notes : string)
        (resp : response) (body data : dict) :
  destination env (asana_request env task_name task_notes) = Responded resp ->
  status_code resp = 201 ->
  json resp = Ok (VDict body) ->
  dict_get_default body "data" (VDict []) = VDict data ->
  let task_gid := dict_get_default data "gid" (VStr "Unknown") in
  fst (create_asana_task env task_name task_notes)
  = Ok (VDict [("status", VStr "success");
               ("message", VStr "Task created successfully in Asana");
               ("task_id", task_gid);
               ("task_name", VStr task_name);
               ("asana_url",
                VStr (("https://app.asana.com/0/"
                       ++ py_str (getenv_value (ASANA_PROJECT_ID env)))
                      ++ "/" ++ py_str task_gid))]).
Proof.
  intros Hd Hs Hj Hdata task_gid.
  rewrite (create_asana_task_created _ _ _ _ _ _ Hd Hs Hj Hdata). reflexivity.
Qed.

Lemma C5_created_witness :
  fst (create_asana_task
         (answering 201 gid_999 (Ok (VDict [("data", VDict [("gid", VStr "999")])])))
         "[ABC-1] Fix bug" "notes")
  = Ok (VDict [("status", VStr "success");
               ("message", VStr "Task created successfully in Asana");
               ("task_id", VStr "999");
               ("task_name", VStr "[ABC-1] Fix bug");
               ("asana_url", VStr ("https://app.asana.com/0/1200" ++ "/" ++ "999"))]).
Proof.
  apply (C5_created
           (answering 201 gid_999 (Ok (VDict [("data", VDict [("gid", VStr "999")])])))
           "[ABC-1] Fix bug" "notes"
           (Response 201 gid_999 (Ok (VDict [("data", VDict [("gid", VStr "999")])])))
           [("data", VDict [("gid", VStr "999")])] [("gid", VStr "999")]);
    reflexivity.
Defined.

(** C5, as stated, fails: on status 201 with the body [{"data": null}] the
    identifier is absent and the result is an error of type
    "task_creation", not a success with "Unknown". *)
Lemma C5_counterexample :
  exists r,
    fst (create_asana_task
           (answering 201 ("{" ++ quoted "data" ++ ": null}") (Ok (VDict [("data", VNone)])))
           "[ABC-1] Fix bug" "notes") = Ok (VDict r) /\
    dict_get r "status" = Some (VStr "error") /\
    dict_get r "error_type" = Some (VStr "task_creation") /\
    dict_get r "message"
    = Some (VStr ("Unexpected error creating Asana task: "
                  ++ "'NoneType' object has no attribute 'get'")) /\
    dict_get r "task_id" = None.
Proof. eexists. repeat split; reflexivity. Qed.

(* ================================================================= *)
(** ** Totality of the forwarder, and the endpoint *)





(** When [get_json] itself raises (the body of a JSON request does not
    decode) the handler raises too: the framework answers, not the handler. *)
Example undecodable_body_propagates (env : environment) (e : exn) :
  jira_webhook env (Request true (Raise e)) = (Raise e, []).
Proof. reflexivity. Qed.

(** C10.  A JSON request whose decoded value is not an object is answered
    200 with an error of type "processing": reading the "issue" member
    raises on the value, the forwarder catches it, and nothing is sent. *)
Theorem C10_non_object_payload (env : environment) (req : request) (data : value) :
  is_json req = true ->
  get_json req = Ok data ->
  is_dict data = false ->
  jira_webhook env req
  = (Ok (HttpResponse
           (VDict [("status", VStr "error");
                   ("message", VStr ("Error processing webhook data: '"
                                     ++ type_name data
                                     ++ "' object has no attribute 'get'"));
                   ("error_type", VStr "processing")])
           200),
     [Log INFO "Starting Jira to Asana sync process";
      Log "ERROR" ("Error processing webhook data: '" ++ type_name data
                   ++ "' object has no attribute 'get'");
      LogTraceback (no_attribute data "get")]).
Proof.
  intros Hj Hg Hd. unfold jira_webhook. rewrite Hj, Hg.
  cbn. rewrite (webhook_rejects env _ _ (issue_fields_not_object _ Hd)).
  reflexivity.
Qed.

Lemma C10_non_object_payload_witness :
  jira_webhook (answering 201 "" (Ok (VDict []))) (Request true (Ok (VList [VInt 1])))
  = (Ok (HttpResponse
           (VDict [("status", VStr "error");
                   ("message", VStr ("Error processing webhook data: "
                                     ++ "'list' object has no attribute 'get'"));
                   ("error_type", VStr "processing")])
           200),
     [Log INFO "Starting Jira to Asana sync process";
      Log "ERROR" "Error processing webhook data: 'list' object has no attribute 'get'";
      LogTraceback (no_attribute (VList [VInt 1]) "get")]).
Proof.
  apply (C10_non_object_payload (answering 201 "" (Ok (VDict [])))
                                (Request true (Ok (VList [VInt 1]))) (VList [VInt 1]));
    reflexivity.
Defined.

(* ================================================================= *)
(** ** The paragraph walk beyond well-formed paragraphs *)

Lemma paragraph_loop_app (a b : list value) :
  forall acc,
    paragraph_loop (a ++ b) acc
    = (acc' <- paragraph_loop a acc ;; paragraph_loop b acc')%res.
Proof.
  induction a as [|item a IH]; intros acc; simpl; [reflexivity|].
  destruct (py_get item "type" VNone) as [ty|e]; simpl; [|reflexivity].
  destruct (eq_str ty "text"); [|apply IH].
  destruct (py_in "text" item) as [[|]|e]; simpl; [|apply IH|reflexivity].
  destruct (py_getitem item "text") as [t|e]; simpl; [apply IH|reflexivity].
Qed.

Lemma paragraph_loop_objects (ds : list dict) :
  forall acc,
    paragraph_loop (map VDict ds) acc = Ok (acc ++ flat_map node_text ds)%list.
Proof.
  induction ds as [|d ds IH]; intros acc; simpl.
  - rewrite app_nil_r. reflexivity.
  - unfold node_text, dict_has.
    destruct (eq_str (dict_get_default d "type" VNone) "text"); simpl.
    + destruct (dict_get d "text") as [t|]; simpl.
      * rewrite IH, <- app_assoc. reflexivity.
      * apply IH.
    + apply IH.
Qed.

Lemma paragraph_loop_non_object (items : list value) :
  Exists (fun v => is_dict v = false) items ->
  forall acc, exists e, paragraph_loop items acc = Raise e.
Proof.
  induction 1 as [item rest Hitem | item rest Hrest IH]; intros acc.
  - destruct item; try discriminate Hitem; simpl; eauto.
  - destruct item as [| | | | |l|d]; simpl; eauto.
    unfold dict_has.
    destruct (eq_str (dict_get_default d "type" VNone) "text"); [|apply IH].
    destruct (dict_get d "text") as [t|]; simpl; apply IH.
Qed.

Lemma join_items_non_str (parts : list value) :
  Exists (fun v => is_str v = false) parts ->
  forall i, exists e, join_items i parts = Raise e.
Proof.
  induction 1 as [v rest Hv | v rest Hrest IH]; intros i.
  - destruct v; try discriminate Hv; simpl; eauto.
  - destruct v; simpl; eauto.
    destruct (IH (i + 1)) as [e He]. rewrite He. eauto.
Qed.

Lemma node_text_In (ds : list dict) (d : dict) (t : value) :
  In d ds ->
  eq_str (dict_get_default d "type" VNone) "text" = true ->
  dict_get d "text" = Some t ->
  In t (flat_map node_text ds).
Proof.
  intros Hin Hty Htx. apply in_flat_map. exists d. split; [assumption|].
  unfold node_text. rewrite Hty, Htx. left; reflexivity.
Qed.

(** X1.  An inline node that is an object but not a text node (its "type"
    is not "text", or it has no "text" member) adds nothing: a paragraph
    with such a node among its inline nodes has the text of the paragraph
    without it. *)
Theorem X1_other_inline_nodes_ignored
        (p p' : dict) (a b : list value) (n : dict) :
  dict_get p "content" = Some (VList (a ++ VDict n :: b)) ->
  dict_get p' "content" = Some (VList (a ++ b)) ->
  node_text n = [] ->
  extract_paragraph_text (VDict p) = extract_paragraph_text (VDict p').
Proof.
  intros Hp Hp' Hn.
  unfold extract_paragraph_text. simpl. unfold dict_has. rewrite Hp, Hp'. simpl.
  rewrite !paragraph_loop_app.
  destruct (paragraph_loop a []) as [acc|e]; simpl; [|reflexivity].
  unfold node_text in Hn. unfold dict_has.
  destruct (eq_str (dict_get_default n "type" VNone) "text"); [|reflexivity].
  destruct (dict_get n "text"); [discriminate Hn | reflexivity].
Qed.

Lemma X1_other_inline_nodes_ignored_witness :
  extract_paragraph_text
    (VDict [("type", VStr "paragraph");
            ("content", VList ([text_node "Hello"]
                               ++ VDict [("type", VStr "hardBreak")]
                               :: [text_node "world"]))])
  = extract_paragraph_text (paragraph_node ["Hello"; "world"]).
Proof.
  apply (X1_other_inline_nodes_ignored
           [("type", VStr "paragraph");
            ("content", VList ([text_node "Hello"]
                               ++ VDict [("type", VStr "hardBreak")]
                               :: [text_node "world"]))]
           [("type", VStr "paragraph");
            ("content", VList (map text_node ["Hello"; "world"]))]
           [text_node "Hello"] [text_node "world"] [("type", VStr "hardBreak")]);
    reflexivity.
Defined.

(** X2.  An inline node that is not an object (a str, a number, null, a
    list) makes the whole paragraph's text empty, whatever text the other
    nodes hold. *)
Theorem X2_non_object_inline_blanks_paragraph (p : dict) (items : list value) :
  dict_get p "content" = Some (VList items) ->
  Exists (fun v => is_dict v = false) items ->
  extract_paragraph_text (VDict p) = "".
Proof.
  intros Hp Hex.
  unfold extract_paragraph_text. simpl. unfold dict_has. rewrite Hp. simpl.
  destruct (paragraph_loop_non_object _ Hex []) as [e He]. rewrite He. reflexivity.
Qed.

Lemma X2_non_object_inline_blanks_paragraph_witness :
  extract_paragraph_text
    (VDict [("type", VStr "paragraph");
            ("content", VList [text_node "Hello"; VStr "world"])]) = "".
Proof.
  apply (X2_non_object_inline_blanks_paragraph
           [("type", VStr "paragraph");
            ("content", VList [text_node "Hello"; VStr "world"])]
           [text_node "Hello"; VStr "world"]).
  - reflexivity.
  - apply Exists_cons_tl, Exists_cons_hd. reflexivity.
Defined.

(** X3.  When the inline nodes are objects, the paragraph's text is the
    concatenation of what the text nodes hold if all of it is str, and a
    text node whose "text" is not a str (a number, null, an object) makes
    the whole paragraph's text empty. *)
Theorem X3_text_nodes_concatenated (p : dict) (ds : list dict) :
  dict_get p "content" = Some (VList (map VDict ds)) ->
  (forall texts,
      flat_map node_text ds = map VStr texts ->
      extract_paragraph_text (VDict p) = join "" texts) /\
  (Exists (fun v => is_str v = false) (flat_map node_text ds) ->
   extract_paragraph_text (VDict p) = "").
Proof.
  intros Hp.
  assert (Hrun : extract_paragraph_text (VDict p)
                 = match py_join "" (flat_map node_text ds) with
                   | Ok s => s
                   | Raise _ => ""
                   end).
  { unfold extract_paragraph_text. simpl. unfold dict_has. rewrite Hp. simpl.
    rewrite paragraph_loop_objects. reflexivity. }
  rewrite Hrun. unfold py_join. split.
  - intros texts ->. rewrite join_items_strs. reflexivity.
  - intros Hex. destruct (join_items_non_str _ Hex 0) as [e He].
    rewrite He. reflexivity.
Qed.

Lemma X3_text_nodes_concatenated_witness :
  extract_paragraph_text
    (VDict [("content", VList (map VDict [[("type", VStr "text"); ("text", VStr "a")];
                                          [("type", VStr "emoji")];
                                          [("type", VStr "text"); ("text", VStr "b")]]))])
  = join "" ["a"; "b"] /\
  extract_paragraph_text
    (VDict [("content", VList (map VDict [[("type", VStr "text"); ("text", VStr "a")];
                                          [("type", VStr "text"); ("text", VInt 7)]]))])
  = "".
Proof.
  split.
  - apply (proj1 (X3_text_nodes_concatenated
                    [("content", VList (map VDict [[("type", VStr "text"); ("text", VStr "a")];
                                                   [("type", VStr "emoji")];
                                                   [("type", VStr "text"); ("text", VStr "b")]]))]
                    [[("type", VStr "text"); ("text", VStr "a")];
                     [("type", VStr "emoji")];
                     [("type", VStr "text"); ("text", VStr "b")]] eq_refl)).
    reflexivity.
  - apply (proj2 (X3_text_nodes_concatenated
                    [("content", VList (map VDict [[("type", VStr "text"); ("text", VStr "a")];
                                                   [("type", VStr "text"); ("text", VInt 7)]]))]
                    [[("type", VStr "text"); ("text", VStr "a")];
                     [("type", VStr "text"); ("text", VInt 7)]] eq_refl)).
    apply Exists_cons_tl, Exists_cons_hd. reflexivity.
Defined.

(** X4.  The paragraph's text is empty when the paragraph has no "content"
    member, when its "content" is not a list, and when the paragraph is not
    an object at all: the walk never raises. *)
Theorem X4_paragraph_without_list_is_empty (paragraph : value) :
  (forall p, paragraph = VDict p -> dict_get p "content" = None ->
             extract_paragraph_text paragraph = "") /\
  (forall p c, paragraph = VDict p -> dict_get p "content" = Some c ->
               is_list c = false ->
               extract_paragraph_text paragraph = "") /\
  (is_dict paragraph = false -> extract_paragraph_text paragraph = "").
Proof.
  split; [|split].
  - intros p -> Hc. unfold extract_paragraph_text. simpl. unfold dict_has.
    rewrite Hc. reflexivity.
  - intros p c -> Hc Hl. unfold extract_paragraph_text. simpl. unfold dict_has.
    rewrite Hc. simpl.
    destruct c as [| | | |s|l|d]; try reflexivity; try discriminate Hl.
    + destruct s; reflexivity.
    + destruct d; reflexivity.
  - intros Hd. unfold extract_paragraph_text.
    destruct paragraph as [| | | |s|l|d]; try reflexivity; try discriminate Hd; simpl.
    + destruct (is_infix "content" s); reflexivity.
    + destruct (existsb (fun x => eq_str x "content") l); reflexivity.
Qed.

Lemma X4_paragraph_without_list_is_empty_witness :
  extract_paragraph_text (VDict [("type", VStr "paragraph")]) = "" /\
  extract_paragraph_text (VDict [("type", VStr "paragraph"); ("content", VStr "Hello")]) = "" /\
  extract_paragraph_text (VStr "some content") = "".
Proof.
  split; [|split].
  - apply (proj1 (X4_paragraph_without_list_is_empty (VDict [("type", VStr "paragraph")]))
                 [("type", VStr "paragraph")]); reflexivity.
  - apply (proj1 (proj2 (X4_paragraph_without_list_is_empty
                           (VDict [("type", VStr "paragraph"); ("content", VStr "Hello")])))
                 [("type", VStr "paragraph"); ("content", VStr "Hello")] (VStr "Hello"));
      reflexivity.
  - apply (proj2 (proj2 (X4_paragraph_without_list_is_empty (VStr "some content"))));
      reflexivity.
Defined.

(* ================================================================= *)
(** ** The document walk beyond well-formed documents *)

Lemma adf_loop_objects (blocks : list value) :
  Forall (fun b => is_dict b = true) blocks ->
  forall acc,
    adf_loop blocks acc
    = Ok (acc ++ filter str_truthy
                   (map extract_paragraph_text (filter block_is_paragraph blocks)))%list.
Proof.
  induction 1 as [|b blocks Hb Hrest IH]; intros acc; simpl.
  - rewrite app_nil_r. reflexivity.
  - destruct b as [| | | | | |d]; try discriminate Hb. simpl.
    destruct (eq_str (dict_get_default d "type" VNone) "paragraph"); simpl.
    + destruct (str_truthy (extract_paragraph_text (VDict d))).
      * rewrite IH, <- app_assoc. reflexivity.
      * apply IH.
    + apply IH.
Qed.

Lemma adf_loop_non_object (a : list value) (b : value) (rest : list value) :
  Forall (fun v => is_dict v = true) a ->
  is_dict b = false ->
  forall acc, adf_loop (a ++ b :: rest) acc = Raise (no_attribute b "get").
Proof.
  intros Ha Hb. induction Ha as [|v a Hv Ha IH]; intros acc; simpl.
  - destruct b; try discriminate Hb; reflexivity.
  - destruct v as [| | | | | |d]; try discriminate Hv. simpl.
    destruct (eq_str (dict_get_default d "type" VNone) "paragraph"); [|apply IH].
    destruct (str_truthy (extract_paragraph_text (VDict d))); apply IH.
Qed.

(** X5.  On a document whose blocks are all objects the normalizer does not
    fall back and logs nothing: blocks whose "type" is not "paragraph"
    (headings, lists, code blocks) are ignored, and the result is the texts
    of the paragraph blocks that are not empty, in order, joined by
    newlines. *)
Theorem X5_only_paragraph_blocks_count
        (env : environment) (d : dict) (blocks : list value) :
  dict_get d "content" = Some (VList blocks) ->
  Forall (fun b => is_dict b = true) blocks ->
  extract_text_from_adf env (VDict d)
  = (Ok (join nl (filter str_truthy
                    (map extract_paragraph_text (filter block_is_paragraph blocks)))),
     []).
Proof.
  intros Hc Hblocks.
  apply extract_text_from_adf_walked.
  unfold adf_walk. simpl. unfold dict_has. rewrite Hc. simpl.
  rewrite (adf_loop_objects _ Hblocks). reflexivity.
Qed.

Lemma X5_only_paragraph_blocks_count_witness :
  extract_text_from_adf
    (answering 201 "" (Ok (VDict [])))
    (VDict [("content",
             VList [VDict [("type", VStr "heading");
                           ("content", VList [text_node "Title"])];
                    paragraph_node ["one"];
                    VDict [("type", VStr "bulletList")];
                    paragraph_node ["two"]])])
  = (Ok ("one" ++ nl ++ "two"), []).
Proof.
  apply (X5_only_paragraph_blocks_count
           (answering 201 "" (Ok (VDict [])))
           [("content",
             VList [VDict [("type", VStr "heading");
                           ("content", VList [text_node "Title"])];
                    paragraph_node ["one"];
                    VDict [("type", VStr "bulletList")];
                    paragraph_node ["two"]])]
           [VDict [("type", VStr "heading"); ("content", VList [text_node "Title"])];
            paragraph_node ["one"];
            VDict [("type", VStr "bulletList")];
            paragraph_node ["two"]]).
  - reflexivity.
  - repeat constructor.
Defined.

(** X6.  When a block of the document is not an object, the normalizer
    gives up the walk: it returns [str] of the whole document, whatever
    paragraphs came before, and logs one warning that names the type of the
    first such block. *)
Theorem X6_non_object_block_falls_back
        (env : environment) (d : dict) (a : list value) (b : value)
        (rest : list value) :
  dict_get d "content" = Some (VList (a ++ b :: rest)) ->
  Forall (fun v => is_dict v = true) a ->
  is_dict b = false ->
  extract_text_from_adf env (VDict d)
  = (Ok (py_repr (VDict d)),
     [Log "WARN" ("Error extracting text from ADF: '" ++ type_name b
                  ++ "' object has no attribute 'get'")]).
Proof.
  intros Hc Ha Hb.
  assert (Hw : adf_walk (VDict d) = Raise (no_attribute b "get")).
  { unfold adf_walk. simpl. unfold dict_has. rewrite Hc. simpl.
    rewrite (adf_loop_non_object _ _ _ Ha Hb). reflexivity. }
  rewrite (extract_text_from_adf_fell_back env _ _ Hw). reflexivity.
Qed.

Lemma X6_non_object_block_falls_back_witness :
  extract_text_from_adf (on_console ASCII (answering 201 "" (Ok (VDict []))))
                        (VDict [("content", VList ([paragraph_node ["one"]] ++ VNone :: []))])
  = (Ok ("{'content': [{'type': 'paragraph', 'content': "
         ++ "[{'type': 'text', 'text': 'one'}]}, None]}"),
     [Log "WARN" "Error extracting text from ADF: 'NoneType' object has no attribute 'get'"]).
Proof.
  apply (X6_non_object_block_falls_back
           (on_console ASCII (answering 201 "" (Ok (VDict []))))
           [("content", VList ([paragraph_node ["one"]] ++ VNone :: []))]
           [paragraph_node ["one"]] VNone []).
  - reflexivity.
  - repeat constructor.
  - reflexivity.
Defined.

(** X7.  When the "content" of the document cannot be iterated (null, a
    number, a boolean), the normalizer returns [str] of the whole document
    and logs one warning with the error. *)
Theorem X7_content_not_iterable_falls_back
        (env : environment) (d : dict) (c : value) (e : exn) :
  dict_get d "content" = Some c ->
  py_iter c = Raise e ->
  extract_text_from_adf env (VDict d)
  = (Ok (py_repr (VDict d)),
     [Log "WARN" ("Error extracting text from ADF: " ++ exn_str e)]).
Proof.
  intros Hc He.
  assert (Hw : adf_walk (VDict d) = Raise e).
  { unfold adf_walk. simpl. unfold dict_has. rewrite Hc. simpl.
    rewrite He. reflexivity. }
  rewrite (extract_text_from_adf_fell_back env _ _ Hw). reflexivity.
Qed.

Lemma X7_content_not_iterable_falls_back_witness :
  extract_text_from_adf (on_console ASCII (answering 201 "" (Ok (VDict []))))
                        (VDict [("type", VStr "doc"); ("content", VNone)])
  = (Ok "{'type': 'doc', 'content': None}",
     [Log "WARN" "Error extracting text from ADF: 'NoneType' object is not iterable"]).
Proof.
  apply (X7_content_not_iterable_falls_back
           (on_console ASCII (answering 201 "" (Ok (VDict []))))
           [("type", VStr "doc"); ("content", VNone)] VNone
           (Exn TypeError "'NoneType' object is not iterable"));
    reflexivity.
Defined.

(** X8.  The normalizer never raises, on any value and any console: it
    returns a str, and it either logs nothing or logs one warning, in which
    case what it returns is [str] of its argument.  The warning can always
    be written: the errors of the walk have ASCII texts. *)
Theorem X8_normalizer_never_raises (env : environment) (adf_content : value) :
  exists s tr,
    extract_text_from_adf env adf_content = (Ok s, tr) /\
    (tr = [] \/
     exists e, s = py_str adf_content /\
               tr = [Log "WARN" ("Error extracting text from ADF: " ++ exn_str e)]).
Proof.
  destruct (adf_walk adf_content) as [s|e] eqn:H.
  - rewrite (extract_text_from_adf_walked _ _ _ H). eauto.
  - rewrite (extract_text_from_adf_fell_back _ _ _ H). eauto 8.
Qed.

(* ================================================================= *)
(** ** The outbound call *)

(** X9.  Every call of [create_asana_task] sends exactly one request, never
    a second one: a POST to the tasks URL with timeout 30, a bearer
    Authorization header made of the token, and the body
    [{"data": {"name", "notes", "projects": [project]}}] holding the name
    and the notes it was given.  It returns a task result, unless the call
    or the decoding of a 201 answer raised an exception whose error line
    the console cannot write: then the [UnicodeEncodeError] of that print
    leaves the function. *)
Theorem X9_exactly_one_request (env : environment) (task_name task_notes : string) :
  exists outcome tr,
    create_asana_task env task_name task_notes = (outcome, tr) /\
    posts tr
    = [PostRequest
         "https://app.asana.com/api/1.0/tasks"
         (VDict [("data",
                  VDict [("name", VStr task_name);
                         ("notes", VStr task_notes);
                         ("projects", VList [getenv_value (ASANA_PROJECT_ID env)])])])
         [("Authorization", "Bearer " ++ py_str (getenv_value (ASANA_TOKEN env)));
          ("Content-Type", "application/json")]
         30] /\
    ((exists result, outcome = Ok result /\ is_task_result result) \/
     (exists e e0,
         outcome = Raise e /\
         exn_cls e = UnicodeEncodeError /\
         call_raised env task_name task_notes e0 /\
         stdout_accepts env (creation_error_msg e0) = false)).
Proof.
  destruct (create_asana_task_outcome env task_name task_notes)
    as (tr & Hp & [(result & Hrun & Hres) | (e & e0 & Hrun & Hc & _ & Hr & Ha)]);
    rewrite Hrun; do 2 eexists; (split; [reflexivity|]); (split; [exact Hp|]).
  - left. eauto.
  - right. exists e, e0. auto.
Qed.

(** X10.  An exception of the call is classified by its class alone,
    wherever it was raised: raised by [requests.post] or by decoding the
    body of a 201 answer, a [RequestException] gives an error of type
    "network" and any other exception an error of type "task_creation";
    the message ends with the exception's text.  This is so when the
    console can write the error line. *)
Theorem X10_exception_classified_by_class
        (env : environment) (task_name task_notes : string) (e : exn) :
  destination env (asana_request env task_name task_notes) = PostRaised e \/
  (exists resp,
      destination env (asana_request env task_name task_notes) = Responded resp /\
      status_code resp = 201 /\ json resp = Raise e) ->
  stdout_accepts env ((if is_request_exception e
                       then "Network error while calling Asana API: "
                       else "Unexpected error creating Asana task: ") ++ exn_str e)
  = true ->
  exists r,
    fst (create_asana_task env task_name task_notes) = Ok (VDict r) /\
    dict_get r "status" = Some (VStr "error") /\
    dict_get r "error_type"
    = Some (VStr (if is_request_exception e then "network" else "task_creation")) /\
    dict_get r "message"
    = Some (VStr ((if is_request_exception e
                   then "Network error while calling Asana API: "
                   else "Unexpected error creating Asana task: ") ++ exn_str e)).
Proof.
  intros H Ha.
  assert (Hr : call_raised env task_name task_notes e).
  { destruct H as [Hd | (resp & Hd & Hs & Hj)]; [left; exact Hd|].
    right. exists resp. repeat split; try assumption.
    unfold created_result. rewrite Hj. reflexivity. }
  rewrite (create_asana_task_raised _ _ _ _ Hr Ha).
  eexists. repeat split; reflexivity.
Qed.

Lemma X10_exception_classified_by_class_witness :
  exists r,
    fst (create_asana_task
           (answering 201 "<html>" (Raise (Exn ValueError "Expecting value")))
           "[ABC-1] Fix bug" "notes") = Ok (VDict r) /\
    dict_get r "status" = Some (VStr "error") /\
    dict_get r "error_type" = Some (VStr "task_creation") /\
    dict_get r "message"
    = Some (VStr "Unexpected error creating Asana task: Expecting value").
Proof.
  apply (X10_exception_classified_by_class
           (answering 201 "<html>" (Raise (Exn ValueError "Expecting value")))
           "[ABC-1] Fix bug" "notes" (Exn ValueError "Expecting value")).
  - right. eexists. repeat split; reflexivity.
  - reflexivity.
Defined.

(** X11.  A 201 answer whose body decodes to something other than an
    object, or to an object whose "data" member is present and not an
    object, gives an error of type "task_creation" whose message names the
    type of that value: the defaults of [.get] stand in for missing members
    only. *)
Theorem X11_created_with_odd_body
        (env : environment) (task_name task_notes : string)
        (resp : response) (v culprit : value) :
  destination env (asana_request env task_name task_notes) = Responded resp ->
  status_code resp = 201 ->
  json resp = Ok v ->
  (v = culprit \/
   exists body, v = VDict body /\ dict_get body "data" = Some culprit) ->
  is_dict culprit = false ->
  fst (create_asana_task env task_name task_notes)
  = Ok (VDict [("status", VStr "error");
               ("message", VStr ("Unexpected error creating Asana task: '"
                                 ++ type_name culprit
                                 ++ "' object has no attribute 'get'"));
               ("error_type", VStr "task_creation")]).
Proof.
  intros Hd Hs Hj Hv Hc.
  assert (Hr : call_raised env task_name task_notes (no_attribute culprit "get")).
  { right. exists resp. repeat split; try assumption.
    unfold created_result. rewrite Hj.
    destruct Hv as [-> | (body & -> & Hdata)].
    - destruct culprit; try discriminate Hc; reflexivity.
    - simpl. unfold dict_get_default. rewrite Hdata.
      destruct culprit; try discriminate Hc; reflexivity. }
  rewrite (create_asana_task_raised _ _ _ _ Hr).
  - destruct culprit; try discriminate Hc; reflexivity.
  - apply all_ascii_encodable.
    destruct culprit; try discriminate Hc; reflexivity.
Qed.

Lemma X11_created_with_odd_body_witness :
  fst (create_asana_task (answering 201 "[]" (Ok (VList []))) "[ABC-1] Fix bug" "notes")
  = Ok (VDict [("status", VStr "error");
               ("message", VStr ("Unexpected error creating Asana task: "
                                 ++ "'list' object has no attribute 'get'"));
               ("error_type", VStr "task_creation")]).
Proof.
  apply (X11_created_with_odd_body
           (answering 201 "[]" (Ok (VList []))) "[ABC-1] Fix bug" "notes"
           (Response 201 "[]" (Ok (VList []))) (VList []) (VList []));
    try reflexivity.
  left. reflexivity.
Defined.

(** X22.  The error line of a non-201 answer is printed inside the [try]
    block: when the console cannot write it (the body holds a character the
    console lacks), the print raises and the result is an error of type
    "task_creation" made of the [UnicodeEncodeError], without status code,
    instead of the "asana_api" error. *)
Theorem X22_unwritable_api_error
        (env : environment) (task_name task_notes : string) (resp : response) :
  destination env (asana_request env task_name task_notes) = Responded resp ->
  status_code resp <> 201 ->
  stdout_accepts env ("Asana API Error: " ++ str_int (status_code resp)
                      ++ " - " ++ text resp) = false ->
  exists e r,
    exn_cls e = UnicodeEncodeError /\
    fst (create_asana_task env task_name task_notes) = Ok (VDict r) /\
    dict_get r "status" = Some (VStr "error") /\
    dict_get r "error_type" = Some (VStr "task_creation") /\
    dict_get r "message"
    = Some (VStr ("Unexpected error creating Asana task: " ++ exn_str e)) /\
    dict_get r "status_code" = None.
Proof.
  intros Hd Hs Ha. unfold create_asana_task, try_except.
  destruct (create_task_body_not_201 _ _ _ _ Hd Hs)
    as [[Ha' _] | [_ (e & Hb & Hc & Hascii)]];
    [unfold api_error_msg in Ha'; congruence|].
  rewrite Hb, (creation_failed_ascii env e Hascii).
  exists e. eexists. split; [exact Hc|]. split; [reflexivity|].
  unfold creation_error_msg. unfold is_request_exception. rewrite Hc.
  repeat split; reflexivity.
Qed.

Lemma X22_unwritable_api_error_witness :
  exists e r,
    exn_cls e = UnicodeEncodeError /\
    fst (create_asana_task
           (on_console ASCII (answering 500 cafe (Raise (Exn ValueError ""))))
           "[ABC-1] Fix bug" "notes") = Ok (VDict r) /\
    dict_get r "status" = Some (VStr "error") /\
    dict_get r "error_type" = Some (VStr "task_creation") /\
    dict_get r "message"
    = Some (VStr ("Unexpected error creating Asana task: " ++ exn_str e)) /\
    dict_get r "status_code" = None.
Proof.
  apply (X22_unwritable_api_error
           (on_console ASCII (answering 500 cafe (Raise (Exn ValueError ""))))
           "[ABC-1] Fix bug" "notes" (Response 500 cafe (Raise (Exn ValueError "")))).
  - reflexivity.
  - simpl. lia.
  - reflexivity.
Defined.

(* ================================================================= *)
(** ** The forwarder and the endpoint, end to end *)

Lemma join_nl_truthy (segs : list string) :
  Forall (fun s => str_truthy s = true) segs ->
  segs <> [] ->
  str_truthy (join nl segs) = true.
Proof.
  intros Hall Hne. destruct Hall as [|s segs Hs Hall]; [congruence|].
  unfold join. destruct s as [|c s]; [discriminate Hs|].
  destruct segs; reflexivity.
Qed.

Lemma filter_all_false {A} (f : A -> bool) (l : list A) :
  Forall (fun x => f x = false) l -> filter f l = [].
Proof.
  induction 1 as [|x l Hx Hl IH]; simpl; [reflexivity|].
  rewrite Hx. exact IH.
Qed.

Lemma jira_webhook_returns
      (env : environment) (req : request) (data result : value) (tr : list event) :
  is_json req = true ->
  get_json req = Ok data ->
  create_asana_task_from_jira_webhook env data = (Ok result, tr) ->
  jira_webhook env req = (Ok (HttpResponse result 200), tr).
Proof.
  intros Hj Hg Hrun. unfold jira_webhook. rewrite Hj, Hg. cbn. rewrite Hrun. cbn.
  rewrite app_nil_r. reflexivity.
Qed.

(** With line 113 written, what [create_asana_task] returns is what the
    forwarder returns, and a success is logged. *)
Lemma forwarded_result
      (env : environment) (data jira_key summary description : value) :
  issue_fields data = Ok (jira_key, summary, description) ->
  stdout_accepts env (processing_line jira_key summary) = true ->
  exists text tr1,
    description_text env description = (Ok text, tr1) /\
    forall r tr2,
      create_asana_task env (asana_task_name jira_key summary)
                        (asana_task_notes jira_key summary text) = (Ok (VDict r), tr2) ->
      exists tr,
        create_asana_task_from_jira_webhook env data = (Ok (VDict r), tr) /\
        (dict_get r "status" = Some (VStr "success") ->
         In (Log INFO ("Successfully created Asana task for " ++ py_str jira_key)) tr).
Proof.
  intros Hf Ha.
  destruct (webhook_forwards env _ _ _ _ Hf Ha)
    as (text & tr1 & tr2 & tr & Hd & _ & _ & Hcases).
  exists text, tr1. split; [exact Hd|].
  intros r tr2' Hc.
  destruct Hcases as [(r' & Hc' & _ & Hrun & Htr) | (e & e0 & Hc' & _)];
    rewrite Hc in Hc'; [|discriminate Hc'].
  injection Hc' as <- <-. exists tr. split; [exact Hrun|].
  intros Hs. subst tr. unfold dict_get_default. rewrite Hs.
  right. apply in_or_app. right. right. apply in_or_app. right.
  left. reflexivity.
Qed.

(** X12.  A payload whose "issue" member is present and not an object
    (null, a str, a list), or whose issue has a "fields" member that is
    present and not an object, is answered with an error of type
    "processing" that names the type of that value; no request is sent. *)
Theorem X12_nested_non_object_rejected
        (env : environment) (top : dict) (culprit : value) :
  (dict_get top "issue" = Some culprit \/
   exists issue, dict_get top "issue" = Some (VDict issue) /\
                 dict_get issue "fields" = Some culprit) ->
  is_dict culprit = false ->
  create_asana_task_from_jira_webhook env (VDict top)
  = (Ok (VDict [("status", VStr "error");
                ("message", VStr ("Error processing webhook data: '"
                                  ++ type_name culprit
                                  ++ "' object has no attribute 'get'"));
                ("error_type", VStr "processing")]),
     [Log INFO "Starting Jira to Asana sync process";
      Log "ERROR" ("Error processing webhook data: '" ++ type_name culprit
                   ++ "' object has no attribute 'get'");
      LogTraceback (no_attribute culprit "get")]).
Proof.
  intros Hwhere Hc.
  assert (Hf : issue_fields (VDict top) = Raise (no_attribute culprit "get")).
  { unfold issue_fields. simpl. unfold dict_get_default.
    destruct Hwhere as [Hi | (issue & Hi & Hfields)]; rewrite Hi.
    - destruct culprit; try discriminate Hc; reflexivity.
    - simpl. unfold dict_get_default. rewrite Hfields.
      destruct culprit; try discriminate Hc; reflexivity. }
  rewrite (webhook_rejects env _ _ Hf). reflexivity.
Qed.

Lemma X12_nested_non_object_rejected_witness :
  create_asana_task_from_jira_webhook
    (answering 201 "" (Ok (VDict [])))
    (VDict [("issue", VDict [("key", VStr "ABC-1"); ("fields", VNone)])])
  = (Ok (VDict [("status", VStr "error");
                ("message", VStr ("Error processing webhook data: "
                                  ++ "'NoneType' object has no attribute 'get'"));
                ("error_type", VStr "processing")]),
     [Log INFO "Starting Jira to Asana sync process";
      Log "ERROR" "Error processing webhook data: 'NoneType' object has no attribute 'get'";
      LogTraceback (no_attribute VNone "get")]).
Proof.
  apply (X12_nested_non_object_rejected
           (answering 201 "" (Ok (VDict [])))
           [("issue", VDict [("key", VStr "ABC-1"); ("fields", VNone)])] VNone).
  - right. eexists. split; reflexivity.
  - reflexivity.
Defined.

(** X13.  A description that is an object without a "content" member (the
    empty object too) is forwarded, when the console can write line 113,
    as a Description section holding [str] of the object: such a
    description never leaves the section out. *)
Theorem X13_object_without_content_rendered
        (env : environment) (data jira_key summary : value) (d : dict) :
  issue_fields data = Ok (jira_key, summary, VDict d) ->
  dict_get d "content" = None ->
  stdout_accepts env ("Processing Jira issue: " ++ py_str jira_key
                      ++ " - " ++ py_str summary) = true ->
  posted "notes" (create_asana_task_from_jira_webhook env data)
  = [Some (VStr (notes_header jira_key summary
                 ++ "Description:" ++ nl ++ py_repr (VDict d)))].
Proof.
  intros Hf Hc Ha.
  assert (Hd : description_text env (VDict d) = (Ok (py_repr (VDict d)), [])).
  { unfold description_text. simpl is_dict. cbv iota.
    apply extract_text_from_adf_walked.
    unfold adf_walk. simpl. unfold dict_has. rewrite Hc. reflexivity. }
  rewrite (forwarded_notes env _ _ _ _ _ _ Hf Hd Ha).
  unfold asana_task_notes.
  destruct (str_truthy (py_repr (VDict d))) eqn:E; [reflexivity|].
  discriminate E.
Qed.

Lemma X13_object_without_content_rendered_witness :
  posted "notes" (create_asana_task_from_jira_webhook
                    (answering 201 "" (Ok (VDict [])))
                    (issue_event "ABC-1" "Fix bug" [("description", VDict [])]))
  = [Some (VStr ("Jira Issue: ABC-1" ++ nl ++ "Original Summary: Fix bug" ++ nl ++ nl
                 ++ "Description:" ++ nl ++ "{}"))].
Proof.
  apply (X13_object_without_content_rendered
           (answering 201 "" (Ok (VDict [])))
           (issue_event "ABC-1" "Fix bug" [("description", VDict [])])
           (VStr "ABC-1") (VStr "Fix bug") []); reflexivity.
Defined.

(** X14.  A document description whose blocks are objects none of which is
    a paragraph with text (only headings, lists, empty paragraphs, or no
    block at all) is forwarded, when the console can write line 113,
    without a Description section: the notes are the header alone. *)
Theorem X14_document_without_paragraph_text
        (env : environment) (data jira_key summary : value)
        (d : dict) (blocks : list value) :
  issue_fields data = Ok (jira_key, summary, VDict d) ->
  dict_get d "content" = Some (VList blocks) ->
  Forall (fun b => is_dict b = true) blocks ->
  Forall (fun b => str_truthy (extract_paragraph_text b) = false)
         (filter block_is_paragraph blocks) ->
  stdout_accepts env ("Processing Jira issue: " ++ py_str jira_key
                      ++ " - " ++ py_str summary) = true ->
  posted "notes" (create_asana_task_from_jira_webhook env data)
  = [Some (VStr (notes_header jira_key summary))].
Proof.
  intros Hf Hc Hobj Hempty Ha.
  assert (Hd : description_text env (VDict d) = (Ok "", [])).
  { unfold description_text. simpl is_dict. cbv iota.
    apply extract_text_from_adf_walked.
    unfold adf_walk. simpl. unfold dict_has. rewrite Hc. simpl.
    rewrite (adf_loop_objects _ Hobj). simpl.
    rewrite (filter_all_false str_truthy).
    - reflexivity.
    - apply Forall_map. exact Hempty. }
  rewrite (forwarded_notes env _ _ _ _ _ _ Hf Hd Ha). reflexivity.
Qed.

Lemma X14_document_without_paragraph_text_witness :
  posted "notes"
         (create_asana_task_from_jira_webhook
            (answering 201 "" (Ok (VDict [])))
            (issue_event "ABC-1" "Fix bug"
               [("description",
                 VDict [("content",
                         VList [VDict [("type", VStr "heading");
                                       ("content", VList [text_node "Steps"])];
                                paragraph_node []])])]))
  = [Some (VStr ("Jira Issue: ABC-1" ++ nl ++ "Original Summary: Fix bug" ++ nl ++ nl))].
Proof.
  apply (X14_document_without_paragraph_text
           (answering 201 "" (Ok (VDict [])))
           (issue_event "ABC-1" "Fix bug"
              [("description",
                VDict [("content",
                        VList [VDict [("type", VStr "heading");
                                      ("content", VList [text_node "Steps"])];
                               paragraph_node []])])])
           (VStr "ABC-1") (VStr "Fix bug")
           [("content",
             VList [VDict [("type", VStr "heading");
                           ("content", VList [text_node "Steps"])];
                    paragraph_node []])]
           [VDict [("type", VStr "heading"); ("content", VList [text_node "Steps"])];
            paragraph_node []]).
  - reflexivity.
  - reflexivity.
  - repeat constructor.
  - repeat constructor.
  - reflexivity.
Defined.

(** X15.  A well-formed document description with at least one paragraph
    that has text is forwarded, when the console can write line 113, as the
    header followed by "Description:", a newline and the texts of the
    paragraphs that have some, joined by newlines. *)
Theorem X15_document_forwarded
        (env : environment) (data jira_key summary description : value)
        (paragraphs : list (list string)) :
  issue_fields data = Ok (jira_key, summary, description) ->
  is_document description paragraphs ->
  segments paragraphs <> [] ->
  stdout_accepts env ("Processing Jira issue: " ++ py_str jira_key
                      ++ " - " ++ py_str summary) = true ->
  posted "notes" (create_asana_task_from_jira_webhook env data)
  = [Some (VStr (notes_header jira_key summary
                 ++ "Description:" ++ nl ++ join nl (segments paragraphs)))].
Proof.
  intros Hf (d & blocks & -> & Hc & Hblocks) Hne Ha.
  assert (Hd : description_text env (VDict d)
               = (Ok (join nl (segments paragraphs)), [])).
  { unfold description_text. simpl is_dict. cbv iota.
    apply extract_text_from_adf_walked.
    unfold adf_walk. simpl. unfold dict_has. rewrite Hc. simpl.
    rewrite (adf_loop_paragraphs _ _ Hblocks). reflexivity. }
  rewrite (forwarded_notes env _ _ _ _ _ _ Hf Hd Ha).
  unfold asana_task_notes. rewrite join_nl_truthy; [reflexivity| |exact Hne].
  unfold segments. apply Forall_forall. intros s Hs.
  apply filter_In in Hs. apply Hs.
Qed.

Lemma X15_document_forwarded_witness :
  posted "notes"
         (create_asana_task_from_jira_webhook
            (answering 201 "" (Ok (VDict [])))
            (issue_event "ABC-1" "Fix bug"
                         [("description", adf_doc [["Hello"]; []; ["Bye"]])]))
  = [Some (VStr ("Jira Issue: ABC-1" ++ nl ++ "Original Summary: Fix bug" ++ nl ++ nl
                 ++ "Description:" ++ nl ++ "Hello" ++ nl ++ "Bye"))].
Proof.
  apply (X15_document_forwarded
           (answering 201 "" (Ok (VDict [])))
           (issue_event "ABC-1" "Fix bug"
                        [("description", adf_doc [["Hello"]; []; ["Bye"]])])
           (VStr "ABC-1") (VStr "Fix bug") (adf_doc [["Hello"]; []; ["Bye"]])
           [["Hello"]; []; ["Bye"]]).
  - reflexivity.
  - apply is_document_adf_doc.
  - discriminate.
  - reflexivity.
Defined.

(** X16.  A failure of the destination is reported to the sender with HTTP
    200: for a JSON request whose fields can be read and whose line 113 the
    console can write, a destination that answers with a status other than
    201 gives the "asana_api" error with the status code as body, and a
    destination that cannot be reached gives the "network" or
    "task_creation" error as body, when the console can write the error
    line. *)
Theorem X16_downstream_failure_is_200
        (env : environment) (req : request) (data jira_key summary description : value) :
  is_json req = true ->
  get_json req = Ok data ->
  issue_fields data = Ok (jira_key, summary, description) ->
  stdout_accepts env ("Processing Jira issue: " ++ py_str jira_key
                      ++ " - " ++ py_str summary) = true ->
  (forall resp,
      (forall r, destination env r = Responded resp) ->
      status_code resp <> 201 ->
      stdout_accepts env ("Asana API Error: " ++ str_int (status_code resp)
                          ++ " - " ++ text resp) = true ->
      exists tr,
        jira_webhook env req
        = (Ok (HttpResponse
                 (VDict [("status", VStr "error");
                         ("message", VStr ("Asana API Error: "
                                           ++ str_int (status_code resp)
                                           ++ " - " ++ text resp));
                         ("error_type", VStr "asana_api");
                         ("status_code", VInt (status_code resp))])
                 200), tr)) /\
  (forall e,
      (forall r, destination env r = PostRaised e) ->
      stdout_accepts env ((if is_request_exception e
                           then "Network error while calling Asana API: "
                           else "Unexpected error creating Asana task: ")
                          ++ exn_str e) = true ->
      exists tr,
        jira_webhook env req
        = (Ok (HttpResponse
                 (VDict [("status", VStr "error");
                         ("message",
                          VStr ((if is_request_exception e
                                 then "Network error while calling Asana API: "
                                 else "Unexpected error creating Asana task: ")
                                ++ exn_str e));
                         ("error_type",
                          VStr (if is_request_exception e
                                then "network" else "task_creation"))])
                 200), tr)).
Proof.
  intros Hj Hg Hf Ha.
  destruct (forwarded_result env _ _ _ _ Hf Ha) as (text & tr1 & _ & Hfwd).
  split.
  - intros resp Hd Hs Hmsg.
    destruct (Hfwd _ _ (create_asana_task_not_created _ _ _ _ (Hd _) Hs Hmsg))
      as (tr & Hrun & _).
    exists tr. exact (jira_webhook_returns _ _ _ _ _ Hj Hg Hrun).
  - intros e Hd Hmsg.
    destruct (create_asana_task env (asana_task_name jira_key summary)
                (asana_task_notes jira_key summary text)) as [out tr2] eqn:Hc.
    assert (Hout := create_asana_task_raised
                      env (asana_task_name jira_key summary)
                      (asana_task_notes jira_key summary text) e
                      (or_introl (Hd _)) Hmsg).
    rewrite Hc in Hout. simpl fst in Hout. subst out.
    destruct (Hfwd _ _ eq_refl) as (tr & Hrun & _).
    exists tr. exact (jira_webhook_returns _ _ _ _ _ Hj Hg Hrun).
Qed.

Lemma X16_downstream_failure_is_200_witness :
  (exists tr,
      jira_webhook (answering 503 "Service Unavailable" (Raise (Exn ValueError "")))
                   (Request true (Ok (issue_event "ABC-1" "Fix bug" [])))
      = (Ok (HttpResponse
               (VDict [("status", VStr "error");
                       ("message", VStr "Asana API Error: 503 - Service Unavailable");
                       ("error_type", VStr "asana_api");
                       ("status_code", VInt 503)])
               200), tr)) /\
  (exists tr,
      jira_webhook (failing (Exn ConnectionError "Connection refused"))
                   (Request true (Ok (issue_event "ABC-1" "Fix bug" [])))
      = (Ok (HttpResponse
               (VDict [("status", VStr "error");
                       ("message",
                        VStr "Network error while calling Asana API: Connection refused");
                       ("error_type", VStr "network")])
               200), tr)).
Proof.
  split.
  - apply (proj1 (X16_downstream_failure_is_200
                    (answering 503 "Service Unavailable" (Raise (Exn ValueError "")))
                    (Request true (Ok (issue_event "ABC-1" "Fix bug" [])))
                    (issue_event "ABC-1" "Fix bug" [])
                    (VStr "ABC-1") (VStr "Fix bug") (VStr "")
                    eq_refl eq_refl eq_refl eq_refl)
                 (Response 503 "Service Unavailable" (Raise (Exn ValueError "")))).
    + intros r. reflexivity.
    + simpl. lia.
    + reflexivity.
  - apply (proj2 (X16_downstream_failure_is_200
                    (failing (Exn ConnectionError "Connection refused"))
                    (Request true (Ok (issue_event "ABC-1" "Fix bug" [])))
                    (issue_event "ABC-1" "Fix bug" [])
                    (VStr "ABC-1") (VStr "Fix bug") (VStr "")
                    eq_refl eq_refl eq_refl eq_refl)
                 (Exn ConnectionError "Connection refused")).
    + intros r. reflexivity.
    + reflexivity.
Defined.

(** X17.  For a JSON request whose fields can be read and whose line 113
    the console can write, when the destination answers 201 with a body
    that decodes to an object whose "data" is absent or an object, the
    endpoint answers 200 with the success result: its task name is
    ["[{key}] {summary}"], its task id the "gid" of "data" (or "Unknown"),
    and its URL is made of the project and the task id; the success is
    logged with the issue key. *)
Theorem X17_created_end_to_end
        (env : environment) (req : request) (data jira_key summary description : value)
        (resp : response) (body dat : dict) :
  is_json req = true ->
  get_json req = Ok data ->
  issue_fields data = Ok (jira_key, summary, description) ->
  stdout_accepts env ("Processing Jira issue: " ++ py_str jira_key
                      ++ " - " ++ py_str summary) = true ->
  (forall r, destination env r = Responded resp) ->
  status_code resp = 201 ->
  json resp = Ok (VDict body) ->
  dict_get_default body "data" (VDict []) = VDict dat ->
  exists tr,
    jira_webhook env req
    = (Ok (HttpResponse
             (VDict [("status", VStr "success");
                     ("message", VStr "Task created successfully in Asana");
                     ("task_id", dict_get_default dat "gid" (VStr "Unknown"));
                     ("task_name",
                      VStr ("[" ++ py_str jira_key ++ "] " ++ py_str summary));
                     ("asana_url",
                      VStr (("https://app.asana.com/0/"
                             ++ py_str (getenv_value (ASANA_PROJECT_ID env)))
                            ++ "/"
                            ++ py_str (dict_get_default dat "gid" (VStr "Unknown"))))])
             200), tr) /\
    In (Log INFO ("Successfully created Asana task for " ++ py_str jira_key)) tr.
Proof.
  intros Hj Hg Hf Ha Hd Hs Hjs Hdat.
  destruct (forwarded_result env _ _ _ _ Hf Ha) as (text & tr1 & _ & Hfwd).
  destruct (Hfwd _ _ (create_asana_task_created
                        env (asana_task_name jira_key summary)
                        (asana_task_notes jira_key summary text)
                        resp body dat (Hd _) Hs Hjs Hdat))
    as (tr & Hrun & Hlog).
  exists tr. split.
  - exact (jira_webhook_returns _ _ _ _ _ Hj Hg Hrun).
  - apply Hlog. reflexivity.
Qed.

Lemma X17_created_end_to_end_witness :
  exists tr,
    jira_webhook
      (answering 201 gid_999 (Ok (VDict [("data", VDict [("gid", VStr "999")])])))
      (Request true (Ok (issue_event "ABC-1" "Fix bug" [])))
    = (Ok (HttpResponse
             (VDict [("status", VStr "success");
                     ("message", VStr "Task created successfully in Asana");
                     ("task_id", VStr "999");
                     ("task_name", VStr "[ABC-1] Fix bug");
                     ("asana_url", VStr ("https://app.asana.com/0/1200" ++ "/" ++ "999"))])
             200), tr) /\
    In (Log INFO "Successfully created Asana task for ABC-1") tr.
Proof.
  apply (X17_created_end_to_end
           (answering 201 gid_999 (Ok (VDict [("data", VDict [("gid", VStr "999")])])))
           (Request true (Ok (issue_event "ABC-1" "Fix bug" [])))
           (issue_event "ABC-1" "Fix bug" [])
           (VStr "ABC-1") (VStr "Fix bug") (VStr "")
           (Response 201 gid_999 (Ok (VDict [("data", VDict [("gid", VStr "999")])])))
           [("data", VDict [("gid", VStr "999")])] [("gid", VStr "999")]);
    reflexivity.
Defined.

(** X21.  The line 113 is printed inside the [try] block: for a payload
    whose fields can be read but whose key or summary holds a character the
    console cannot write, the print raises; the forwarder answers with an
    error of type "processing" made of the [UnicodeEncodeError], and no
    request is sent to the destination. *)
Theorem X21_unwritable_log_rejects
        (env : environment) (data jira_key summary description : value) :
  issue_fields data = Ok (jira_key, summary, description) ->
  stdout_accepts env ("Processing Jira issue: " ++ py_str jira_key
                      ++ " - " ++ py_str summary) = false ->
  exists e tr,
    exn_cls e = UnicodeEncodeError /\
    create_asana_task_from_jira_webhook env data
    = (Ok (VDict [("status", VStr "error");
                  ("message", VStr ("Error processing webhook data: " ++ exn_str e));
                  ("error_type", VStr "processing")]), tr) /\
    posts tr = [].
Proof.
  intros Hf Ha.
  destruct (webhook_unwritable env _ _ _ _ Hf Ha) as (e & tr & Hrun & Hp & Hc).
  exists e, tr. repeat split; assumption.
Qed.

Lemma X21_unwritable_log_rejects_witness :
  exists e tr,
    exn_cls e = UnicodeEncodeError /\
    create_asana_task_from_jira_webhook
      (on_console ASCII (answering 201 "" (Ok (VDict []))))
      (issue_event "ABC-1" cafe [])
    = (Ok (VDict [("status", VStr "error");
                  ("message", VStr ("Error processing webhook data: " ++ exn_str e));
                  ("error_type", VStr "processing")]), tr) /\
    posts tr = [].
Proof.
  apply (X21_unwritable_log_rejects
           (on_console ASCII (answering 201 "" (Ok (VDict []))))
           (issue_event "ABC-1" cafe [])
           (VStr "ABC-1") (VStr cafe) (VStr "")); reflexivity.
Defined.



(* ================================================================= *)
(** ** Configuration, composition and what is never sent *)

Lemma append_assoc_str (a b c : string) : (a ++ b) ++ c = a ++ (b ++ c).
Proof.
  induction a as [|x a IH]; [reflexivity|].
  change (String x ((a ++ b) ++ c) = String x (a ++ (b ++ c))). congruence.
Qed.

Lemma join_app (sep : string) (l1 l2 : list string) :
  l1 <> [] -> l2 <> [] ->
  join sep (l1 ++ l2) = join sep l1 ++ sep ++ join sep l2.
Proof.
  unfold join. intros H1 H2.
  induction l1 as [|x l1 IH]; [congruence|].
  destruct l1 as [|y l1].
  - destruct l2; [congruence | reflexivity].
  - change (String.concat sep ((x :: y :: l1) ++ l2))
      with (x ++ sep ++ String.concat sep ((y :: l1) ++ l2)).
    rewrite IH by discriminate.
    change (String.concat sep (x :: y :: l1))
      with (x ++ sep ++ String.concat sep (y :: l1)).
    rewrite !append_assoc_str. reflexivity.
Qed.

Lemma join_segments_app (l1 l2 : list string) :
  Forall (fun s => str_truthy s = true) l1 ->
  Forall (fun s => str_truthy s = true) l2 ->
  join nl (l1 ++ l2)
  = if str_truthy (join nl l1)
    then if str_truthy (join nl l2) then join nl l1 ++ nl ++ join nl l2 else join nl l1
    else join nl l2.
Proof.
  intros H1 H2.
  destruct l1 as [|x l1]; [reflexivity|].
  rewrite (join_nl_truthy (x :: l1)) by (assumption || discriminate).
  destruct l2 as [|y l2].
  - rewrite app_nil_r. reflexivity.
  - rewrite (join_nl_truthy (y :: l2)) by (assumption || discriminate).
    apply join_app; discriminate.
Qed.

Lemma filter_truthy_all (l : list string) :
  Forall (fun s => str_truthy s = true) (filter str_truthy l).
Proof. apply Forall_forall. intros s Hs. apply filter_In in Hs. apply Hs. Qed.

(** X18.  Missing configuration is not checked: when neither the token nor
    the project identifier is set, the request is sent all the same, with
    the header ["Bearer None"] and the project list [[null]], and on a 201
    answer the URL of the result has "None" for the project. *)
Theorem X18_missing_configuration
        (env : environment) (task_name task_notes : string) :
  ASANA_TOKEN env = None ->
  ASANA_PROJECT_ID env = None ->
  posts (snd (create_asana_task env task_name task_notes))
  = [PostRequest "https://app.asana.com/api/1.0/tasks"
                 (VDict [("data", VDict [("name", VStr task_name);
                                         ("notes", VStr task_notes);
                                         ("projects", VList [VNone])])])
                 [("Authorization", "Bearer None");
                  ("Content-Type", "application/json")]
                 30] /\
  (forall resp body dat,
      destination env (asana_request env task_name task_notes) = Responded resp ->
      status_code resp = 201 ->
      json resp = Ok (VDict body) ->
      dict_get_default body "data" (VDict []) = VDict dat ->
      exists r,
        fst (create_asana_task env task_name task_notes) = Ok (VDict r) /\
        dict_get r "asana_url"
        = Some (VStr ("https://app.asana.com/0/None/"
                      ++ py_str (dict_get_default dat "gid" (VStr "Unknown"))))).
Proof.
  intros Ht Hp. split.
  - rewrite create_asana_task_posts.
    unfold asana_request. rewrite Ht, Hp. reflexivity.
  - intros resp body dat Hd Hs Hj Hdat.
    rewrite (create_asana_task_created _ _ _ _ _ _ Hd Hs Hj Hdat).
    eexists. split; [reflexivity|]. rewrite Hp. reflexivity.
Qed.

Lemma X18_missing_configuration_witness :
  posts (snd (create_asana_task
                (Environment None None
                   (fun _ => Responded (Response 201 "{}" (Ok (VDict [])))) UTF8)
                "[ABC-1] Fix bug" "notes"))
  = [PostRequest "https://app.asana.com/api/1.0/tasks"
                 (VDict [("data", VDict [("name", VStr "[ABC-1] Fix bug");
                                         ("notes", VStr "notes");
                                         ("projects", VList [VNone])])])
                 [("Authorization", "Bearer None");
                  ("Content-Type", "application/json")]
                 30] /\
  exists r,
    fst (create_asana_task
           (Environment None None
              (fun _ => Responded (Response 201 "{}" (Ok (VDict [])))) UTF8)
           "[ABC-1] Fix bug" "notes") = Ok (VDict r) /\
    dict_get r "asana_url" = Some (VStr "https://app.asana.com/0/None/Unknown").
Proof.
  destruct (X18_missing_configuration
              (Environment None None
                 (fun _ => Responded (Response 201 "{}" (Ok (VDict [])))) UTF8)
              "[ABC-1] Fix bug" "notes" eq_refl eq_refl) as [Hreq Hurl].
  split; [exact Hreq|].
  apply (Hurl (Response 201 "{}" (Ok (VDict []))) [] []); reflexivity.
Defined.

(** X19.  The normalizer composes over the blocks: for documents whose
    blocks are objects, the text of a document holding the blocks of one
    followed by the blocks of another is the two texts joined by a newline,
    or the one that is not empty, or empty. *)
Theorem X19_normalizer_composes
        (env : environment) (da db dab : dict) (a b : list value) :
  dict_get da "content" = Some (VList a) ->
  dict_get db "content" = Some (VList b) ->
  dict_get dab "content" = Some (VList (a ++ b)) ->
  Forall (fun v => is_dict v = true) a ->
  Forall (fun v => is_dict v = true) b ->
  exists ta tb,
    extract_text_from_adf env (VDict da) = (Ok ta, []) /\
    extract_text_from_adf env (VDict db) = (Ok tb, []) /\
    extract_text_from_adf env (VDict dab)
    = (Ok (if str_truthy ta
           then if str_truthy tb then ta ++ nl ++ tb else ta
           else tb), []).
Proof.
  intros Ha Hb Hab Hobja Hobjb.
  assert (Hwalk : forall d blocks,
             dict_get d "content" = Some (VList blocks) ->
             Forall (fun v => is_dict v = true) blocks ->
             extract_text_from_adf env (VDict d)
             = (Ok (join nl (filter str_truthy
                               (map extract_paragraph_text
                                    (filter block_is_paragraph blocks)))), [])).
  { intros d blocks Hc Hobj.
    apply extract_text_from_adf_walked.
    unfold adf_walk. simpl. unfold dict_has. rewrite Hc. simpl.
    rewrite (adf_loop_objects _ Hobj). reflexivity. }
  do 2 eexists.
  split; [apply (Hwalk _ _ Ha Hobja)|].
  split; [apply (Hwalk _ _ Hb Hobjb)|].
  rewrite (Hwalk _ _ Hab) by (apply Forall_app; split; assumption).
  rewrite filter_app, map_app, filter_app.
  rewrite join_segments_app by apply filter_truthy_all.
  reflexivity.
Qed.

Lemma X19_normalizer_composes_witness :
  exists ta tb,
    extract_text_from_adf (answering 201 "" (Ok (VDict [])))
                          (VDict [("content", VList [paragraph_node ["one"]])])
    = (Ok ta, []) /\
    extract_text_from_adf (answering 201 "" (Ok (VDict [])))
                          (VDict [("content", VList [paragraph_node ["two"]])])
    = (Ok tb, []) /\
    extract_text_from_adf
      (answering 201 "" (Ok (VDict [])))
      (VDict [("content", VList ([paragraph_node ["one"]] ++ [paragraph_node ["two"]]))])
    = (Ok (if str_truthy ta
           then if str_truthy tb then ta ++ nl ++ tb else ta
           else tb), []).
Proof.
  apply (X19_normalizer_composes
           (answering 201 "" (Ok (VDict [])))
           [("content", VList [paragraph_node ["one"]])]
           [("content", VList [paragraph_node ["two"]])]
           [("content", VList ([paragraph_node ["one"]] ++ [paragraph_node ["two"]]))]
           [paragraph_node ["one"]] [paragraph_node ["two"]]);
    try reflexivity; repeat constructor.
Defined.

(** X20.  The endpoint sends exactly one request when the request is JSON,
    decodes, its fields can be read and the console can write line 113, and
    none otherwise: a request that is not JSON, does not decode, whose
    fields cannot be read or whose line 113 cannot be written never reaches
    the destination. *)
Theorem X20_requests_sent (env : environment) (req : request) :
  (is_json req = true /\
   exists data jira_key summary description text tr1,
     get_json req = Ok data /\
     issue_fields data = Ok (jira_key, summary, description) /\
     stdout_accepts env (processing_line jira_key summary) = true /\
     description_text env description = (Ok text, tr1) /\
     posts (snd (jira_webhook env req))
     = [asana_request env (asana_task_name jira_key summary)
                      (asana_task_notes jira_key summary text)]) \/
  ((is_json req = false \/
    (exists e, get_json req = Raise e) \/
    (exists data e, get_json req = Ok data /\ issue_fields data = Raise e) \/
    (exists data jira_key summary description,
        get_json req = Ok data /\
        issue_fields data = Ok (jira_key, summary, description) /\
        stdout_accepts env (processing_line jira_key summary) = false)) /\
   posts (snd (jira_webhook env req)) = []).
Proof.
  destruct (is_json req) eqn:Hj;
    [|right; split; [auto | unfold jira_webhook; rewrite Hj; reflexivity]].
  destruct (get_json req) as [data|e] eqn:Hg;
    [|right; split; [eauto 6 | unfold jira_webhook; rewrite Hj, Hg; reflexivity]].
  destruct (forwarder_returns env data) as (result & tr & Hrun & _).
  rewrite (jira_webhook_returns _ _ _ _ _ Hj Hg Hrun). simpl snd.
  assert (Htr : tr = snd (create_asana_task_from_jira_webhook env data))
    by (rewrite Hrun; reflexivity).
  rewrite Htr. clear Htr Hrun.
  destruct (issue_fields data) as [[[k s] d]|e] eqn:Hf.
  - destruct (description_text_returns env d) as (text & tr1 & Hd & _).
    destruct (forwarded_posts env _ _ _ _ _ _ Hf Hd) as [[Ha Hp] | [Ha Hp]].
    + left. split; [reflexivity|].
      exists data, k, s, d, text, tr1. repeat split; assumption.
    + right. split; [|exact Hp].
      right. right. right. exists data, k, s, d. repeat split; assumption.
  - right. split; [eauto 8|].
    rewrite (webhook_rejects env _ _ Hf). reflexivity.
Qed.
